(** * Hyperparameter search for TD3: the trial-search loop of
      [ssnb/algos/td3_optuna_proto/optuna.py]

    The development embeds the three functions of the module,
    [sample_td3_params], [objective] and [tune], as programs of a small
    state-and-exception monad over a Python-like object store.

    - Configuration objects (OmegaConf [DictConfig]) and agent objects live
      in a heap of attribute dictionaries; a field that holds a nested
      configuration holds a reference, and [cfg.copy()] duplicates every
      object that the configuration reaches.
    - Python floats are kept abstract ([PyFloat]): the module only moves
      them around, compares them and tests them for NaN.
    - The Optuna trial, pruner and study are modelled by their documented
      behaviour; the training entry point reached through [eval] is a
      callable of the global environment held in the state, and the
      interpreter's answer to any other text is a parameter ([PyEval]). *)

From Stdlib Require Import ZArith List String Lia Bool.
From Stdlib Require QArith Qround.
From stdpp Require Import gmap strings list.

Local Open Scope string_scope.
Set Warnings "-register-all".

(** ** Exceptions *)

Inductive exn_class :=
| AssertionError
| AttributeError
| NameError
| TypeError
| ValueError
| ZeroDivisionError
| KeyboardInterrupt
| TrialPruned
| OtherError (name : string).

Record exn := Exn { exn_cls : exn_class; exn_msg : string }.

Definition is_AssertionError (e : exn) : bool :=
  match exn_cls e with AssertionError => true | _ => false end.

Definition is_KeyboardInterrupt (e : exn) : bool :=
  match exn_cls e with KeyboardInterrupt => true | _ => false end.

Definition is_TrialPruned (e : exn) : bool :=
  match exn_cls e with TrialPruned => true | _ => false end.

(** ** Python floats, abstractly

    [float_pow b e] is [b ** e] for a negative integer exponent,
    [float_floordiv] is [//] as soon as one operand is a float and
    [float_trunc] is [int(x)]; [median_below] is the comparison of the
    median-stopping rule (the trial's best intermediate value against the
    median of the completed trials at the same step). *)

Class PyFloat := {
  float : Type;
  nan : float;
  is_nan : float -> bool;
  float_gt : float -> float -> bool;
  float_truth : float -> bool;
  float_of_int : Z -> float;
  float_pow : Z -> Z -> float;
  float_floordiv : float -> float -> exn + float;
  float_trunc : float -> exn + Z;
  median_below : list (list (Z * float)) -> list (Z * float) -> Z -> bool
}.

Section Model.

Context {F : PyFloat}.

(** ** Values and the object store *)

Inductive value :=
| VNone
| VBool (b : bool)
| VInt (z : Z)
| VFloat (f : float)
| VStr (s : string)
| VList (l : list value)
| VRef (a : nat).

(** An object is its attribute dictionary; the heap is indexed by address. *)
Abbreviation node := (gmap string value).
Abbreviation heap_t := (list (gmap string value)).

Inductive outcome (A : Type) :=
| Ret (a : A)
| Raise (e : exn).
Global Arguments Ret {A} a.
Global Arguments Raise {A} e.

(** A callable of the module's global namespace ([run_td3], [run_ddpg]):
    it may read and write the heap, and returns or raises. *)
Definition callable := list value -> heap_t -> heap_t * outcome value.

(** ** Optuna's trial record *)

Inductive param_value :=
| PInt (z : Z)
| PFloat (f : float).

Inductive trial_status := Running | Complete | Pruned | Failed.

(** The two draw functions are the trial-scoped source of random draws:
    the sampler's answer for a parameter name and its bounds, or the
    library's error for bounds it rejects. *)
Record trial_rec := {
  t_draw_int : string -> value -> value -> exn + Z;
  t_draw_float : string -> value -> value -> exn + float;
  t_params : list (string * param_value);
  t_reports : list (Z * float);
  t_status : trial_status;
  t_value : option float
}.

Record MedianPruner := {
  n_startup_trials : Z;
  n_warmup_steps : Z
}.

Inductive event :=
| EPrint (args : list value)
| ECall (f : string) (args : list value)
| ECsv (file : string) (rows : list trial_rec)
| EShow (fig : string).

Record state := {
  heap : heap_t;
  trials : list trial_rec;
  pruner : MedianPruner;
  entropy : nat -> (string -> value -> value -> exn + Z)
                   * (string -> value -> value -> exn + float);
  globals : string -> option callable;
  render : string -> list trial_rec -> option exn;
  trace : list event
}.

Definition set_heap (h : heap_t) (s : state) : state :=
  {| heap := h; trials := trials s; pruner := pruner s;
     entropy := entropy s; globals := globals s; render := render s;
     trace := trace s |}.

Definition set_trials (ts : list trial_rec) (s : state) : state :=
  {| heap := heap s; trials := ts; pruner := pruner s;
     entropy := entropy s; globals := globals s; render := render s;
     trace := trace s |}.

Definition set_pruner (p : MedianPruner) (s : state) : state :=
  {| heap := heap s; trials := trials s; pruner := p;
     entropy := entropy s; globals := globals s; render := render s;
     trace := trace s |}.

Definition log (e : event) (s : state) : state :=
  {| heap := heap s; trials := trials s; pruner := pruner s;
     entropy := entropy s; globals := globals s; render := render s;
     trace := trace s ++ [e] |}.

(** ** The monad: state that survives an exception *)

Definition M (A : Type) := state -> state * outcome A.

Definition ret {A} (a : A) : M A := fun s => (s, Ret a).

Definition raise {A} (e : exn) : M A := fun s => (s, Raise e).

Definition bind {A B} (m : M A) (f : A -> M B) : M B := fun s =>
  match m s with
  | (s', Ret a) => f a s'
  | (s', Raise e) => (s', Raise e)
  end.

(** [try m except C as e: h e] for a class test [C]. *)
Definition try_except {A} (m : M A) (C : exn -> bool) (h : exn -> M A) : M A :=
  fun s =>
  match m s with
  | (s', Ret a) => (s', Ret a)
  | (s', Raise e) => if C e then h e s' else (s', Raise e)
  end.

Definition lift {A} (r : exn + A) : M A :=
  match r with inl e => raise e | inr a => ret a end.

Notation "x <- m ;; k" := (bind m (fun x => k))
  (at level 100, m at next level, right associativity).
Notation "m ;;; k" := (bind m (fun _ => k))
  (at level 100, right associativity).

(** ** Python primitives *)

(** Attribute access [o.k]. Only objects of the heap have attributes here:
    [None.k] and [x.k] for a number raise [AttributeError], and so does a
    key that a configuration node does not hold (OmegaConf 2.1 and later). *)
Definition lookup_attr (h : heap_t) (o : value) (k : string) : exn + value :=
  match o with
  | VRef a =>
      match h !! a with
      | Some nd =>
          match nd !! k with
          | Some v => inr v
          | None => inl (Exn AttributeError k)
          end
      | None => inl (Exn AttributeError k)
      end
  | _ => inl (Exn AttributeError k)
  end.

Definition getattr (o : value) (k : string) : M value :=
  fun s => lift (lookup_attr (heap s) o k) s.

(** [o.k1.k2...kn], resolved left to right. *)
Fixpoint resolve (h : heap_t) (o : value) (p : list string) : exn + value :=
  match p with
  | [] => inr o
  | k :: p' =>
      match lookup_attr h o k with
      | inr v => resolve h v p'
      | inl e => inl e
      end
  end.

Definition attr (o : value) (p : list string) : M value :=
  fun s => lift (resolve (heap s) o p) s.

(** The store [h[a][k] = x]. *)
Definition store (a : nat) (k : string) (x : value) (h : heap_t) : heap_t :=
  match h !! a with
  | Some nd => <[a := <[k := x]> nd]> h
  | None => h
  end.

Definition setattr (o : value) (k : string) (x : value) : M unit :=
  fun s =>
  match o with
  | VRef a =>
      match heap s !! a with
      | Some _ => (set_heap (store a k x (heap s)) s, Ret tt)
      | None => (s, Raise (Exn AttributeError k))
      end
  | _ => (s, Raise (Exn AttributeError k))
  end.

(** The assignment [o.p1...pn.k = x]: the target object is resolved after
    the right-hand side has been evaluated. *)
Definition assign (o : value) (p : list string) (k : string) (x : value) : M unit :=
  tgt <- attr o p ;;
  setattr tgt k x.

(** [relocate n v]: the value [v] with every reference moved up by [n]
    addresses. *)
Fixpoint relocate (n : nat) (v : value) : value :=
  match v with
  | VRef a => VRef (a + n)
  | VList l => VList (map (relocate n) l)
  | _ => v
  end.

(** The duplicates of all the objects of [h], placed after them: the
    duplicate of the object at address [a] is at address [a + length h],
    and its fields refer to duplicates. *)
Definition copied (h : heap_t) : heap_t :=
  h ++ ((fun nd : node => relocate (length h) <$> nd) <$> h).

(** [DictConfig.copy()] is [copy.copy], which OmegaConf answers for a
    container with a deep copy: every object that the configuration reaches
    is duplicated, the duplicates refer to each other as their sources do,
    and none of them refers to an object of the source. The store
    duplicates all its objects at once ([copied]) and the copy is the
    duplicate of the configuration; the duplicates of the objects that the
    configuration does not reach are reached from nothing. *)
Definition copy (o : value) : M value :=
  fun s =>
  match o with
  | VRef a =>
      match heap s !! a with
      | Some _ =>
          (set_heap (copied (heap s)) s, Ret (VRef (a + length (heap s))))
      | None => (s, Raise (Exn AttributeError "copy"))
      end
  | _ => (s, Raise (Exn AttributeError "copy"))
  end.

Definition map_inr {A B} (f : A -> B) (r : exn + A) : exn + B :=
  match r with inl e => inl e | inr a => inr (f a) end.

(** [b ** e] for integers: an integer for [e >= 0], a float otherwise. *)
Definition py_pow (b e : Z) : value :=
  if (0 <=? e)%Z then VInt (b ^ e) else VFloat (float_pow b e).

Definition as_int (v : value) : option Z :=
  match v with
  | VInt z => Some z
  | VBool b => Some (if b then 1%Z else 0%Z)
  | _ => None
  end.

Definition as_float (v : value) : option float :=
  match v with
  | VFloat f => Some f
  | _ => option_map float_of_int (as_int v)
  end.

(** [x // y]: floor division on integers, the float operation as soon as
    one operand is a float, [TypeError] on anything else. *)
Definition floordiv (x y : value) : exn + value :=
  match as_int x, as_int y with
  | Some a, Some b =>
      if (b =? 0)%Z then inl (Exn ZeroDivisionError "integer division or modulo by zero")
      else inr (VInt (a / b))
  | _, _ =>
      match as_float x, as_float y with
      | Some a, Some b => map_inr VFloat (float_floordiv a b)
      | _, _ => inl (Exn TypeError "unsupported operand type(s) for //")
      end
  end.

(** [int(x)] on the result of a division. *)
Definition py_int (v : value) : exn + value :=
  match v with
  | VInt z => inr (VInt z)
  | VBool b => inr (VInt (if b then 1 else 0))
  | VFloat f => map_inr VInt (float_trunc f)
  | _ => inl (Exn TypeError "int() argument must be a string or a real number")
  end.

(** Truth value of a condition. *)
Definition truthy (v : value) : bool :=
  match v with
  | VNone => false
  | VBool b => b
  | VInt z => negb (z =? 0)%Z
  | VFloat f => float_truth f
  | VStr s => negb (String.eqb s "")
  | VList l => match l with [] => false | _ => true end
  | VRef _ => true
  end.

(** [print(...)]. *)
Definition print (args : list value) : M unit :=
  fun s => (log (EPrint args) s, Ret tt).

(** ** The Optuna trial *)

Fixpoint lookup_param (name : string) (ps : list (string * param_value))
  : option param_value :=
  match ps with
  | [] => None
  | (n, v) :: ps' => if String.eqb n name then Some v else lookup_param name ps'
  end.

Definition add_param (name : string) (v : param_value) (t : trial_rec) : trial_rec :=
  {| t_draw_int := t_draw_int t; t_draw_float := t_draw_float t;
     t_params := t_params t ++ [(name, v)];
     t_reports := t_reports t; t_status := t_status t; t_value := t_value t |}.

Definition no_trial {A} : outcome A :=
  Raise (Exn (OtherError "RuntimeError") "unknown trial").

(** [trial.suggest_int(name, low, high)]: a name already suggested in this
    trial gives its recorded value back; otherwise the value is drawn and
    recorded under [name]. *)
Definition suggest_int (trial : nat) (name : string) (low high : value) : M Z :=
  fun s =>
  match trials s !! trial with
  | None => (s, no_trial)
  | Some t =>
      match lookup_param name (t_params t) with
      | Some (PInt z) => (s, Ret z)
      | Some (PFloat _) =>
          (s, Raise (Exn ValueError "incompatible distribution"))
      | None =>
          match t_draw_int t name low high with
          | inl e => (s, Raise e)
          | inr z =>
              (set_trials (<[trial := add_param name (PInt z) t]> (trials s)) s, Ret z)
          end
      end
  end.

(** [trial.suggest_float(name, low, high, log=True)]. *)
Definition suggest_float (trial : nat) (name : string) (low high : value) : M value :=
  fun s =>
  match trials s !! trial with
  | None => (s, no_trial)
  | Some t =>
      match lookup_param name (t_params t) with
      | Some (PFloat f) => (s, Ret (VFloat f))
      | Some (PInt _) =>
          (s, Raise (Exn ValueError "incompatible distribution"))
      | None =>
          match t_draw_float t name low high with
          | inl e => (s, Raise e)
          | inr f =>
              (set_trials (<[trial := add_param name (PFloat f) t]> (trials s)) s,
               Ret (VFloat f))
          end
      end
  end.

(** ** [sample_td3_params] *)

Definition sample_td3_params (trial : nat) (cfg : value) : M value :=
  params <- copy cfg ;;
  (* discount factor *)
  lo <- attr cfg ["algorithm"; "discount_factor"; "min"] ;;
  hi <- attr cfg ["algorithm"; "discount_factor"; "max"] ;;
  x <- suggest_float trial "discount_factor" lo hi ;;
  assign params ["algorithm"] "discount_factor" x ;;;
  (* n_steps *)
  lo <- attr cfg ["algorithm"; "n_steps"; "min"] ;;
  hi <- attr cfg ["algorithm"; "n_steps"; "max"] ;;
  e <- suggest_int trial "n_steps" lo hi ;;
  let n_steps := py_pow 2 e in
  (* buffer_size *)
  lo <- attr cfg ["algorithm"; "buffer_size"; "min"] ;;
  hi <- attr cfg ["algorithm"; "buffer_size"; "max"] ;;
  z <- suggest_int trial "buffer_size" lo hi ;;
  assign params ["algorithm"] "buffer_size" (VInt z) ;;;
  (* batch_size *)
  lo <- attr cfg ["algorithm"; "batch_size"; "min"] ;;
  hi <- attr cfg ["algorithm"; "batch_size"; "max"] ;;
  z <- suggest_int trial "batch_size" lo hi ;;
  assign params ["algorithm"] "batch_size" (VInt z) ;;;
  (* tau_target *)
  lo <- attr cfg ["algorithm"; "tau_target"; "min"] ;;
  hi <- attr cfg ["algorithm"; "tau_target"; "max"] ;;
  x <- suggest_float trial "tau_target" lo hi ;;
  assign params ["algorithm"] "tau_target" x ;;;
  (* action_noise *)
  lo <- attr cfg ["algorithm"; "action_noise"; "min"] ;;
  hi <- attr cfg ["algorithm"; "action_noise"; "max"] ;;
  x <- suggest_float trial "action_std" lo hi ;;
  assign params ["algorithm"] "action_noise" x ;;;
  (* actor hidden size *)
  lo <- attr cfg ["algorithm"; "architecture"; "actor_hidden_size"; "min"] ;;
  hi <- attr cfg ["algorithm"; "architecture"; "actor_hidden_size"; "max"] ;;
  e <- suggest_int trial "actor_hidden_size" lo hi ;;
  let ahs := py_pow 2 e in
  assign params ["algorithm"; "architecture"] "actor_hidden_size" (VList [ahs; ahs]) ;;;
  (* critic hidden size *)
  lo <- attr cfg ["algorithm"; "architecture"; "critic_hidden_size"; "min"] ;;
  hi <- attr cfg ["algorithm"; "architecture"; "critic_hidden_size"; "max"] ;;
  e <- suggest_int trial "critic_hidden_size" lo hi ;;
  let chs := py_pow 2 e in
  assign params ["algorithm"; "architecture"] "critic_hidden_size" (VList [chs; chs]) ;;;
  (* actor learning rate *)
  lo <- attr cfg ["actor_optimizer"; "lr"; "min"] ;;
  hi <- attr cfg ["actor_optimizer"; "lr"; "max"] ;;
  x <- suggest_float trial "actor_lr" lo hi ;;
  assign params ["actor_optimizer"] "lr" x ;;;
  (* critic learning rate *)
  lo <- attr cfg ["critic_optimizer"; "lr"; "min"] ;;
  hi <- attr cfg ["critic_optimizer"; "lr"; "max"] ;;
  x <- suggest_float trial "critic_lr" lo hi ;;
  assign params ["critic_optimizer"] "lr" x ;;;
  assign params ["algorithm"] "n_steps" n_steps ;;;
  nt <- attr params ["algorithm"; "n_timesteps"] ;;
  q <- lift (floordiv nt n_steps) ;;
  m <- lift (py_int q) ;;
  assign params ["algorithm"] "max_epochs" m ;;;
  ret params.

(** ** The rest of the trial interface *)

Definition add_report (step : Z) (f : float) (t : trial_rec) : trial_rec :=
  {| t_draw_int := t_draw_int t; t_draw_float := t_draw_float t;
     t_params := t_params t;
     t_reports := t_reports t ++ [(step, f)];
     t_status := t_status t; t_value := t_value t |}.

Definition reported (step : Z) (t : trial_rec) : bool :=
  existsb (fun r => (fst r =? step)%Z) (t_reports t).

(** [trial.report(value, step)]: the value is cast to a float; a step that
    was already reported keeps its first value. *)
Definition report (trial : nat) (v : value) (step : Z) : M unit :=
  fun s =>
  match trials s !! trial with
  | None => (s, no_trial)
  | Some t =>
      match as_float v with
      | None => (s, Raise (Exn TypeError "report: value is not a number"))
      | Some f =>
          if reported step t then (s, Ret tt)
          else (set_trials (<[trial := add_report step f t]> (trials s)) s, Ret tt)
      end
  end.

(** [trial.last_step]: the largest reported step. *)
Definition last_step (t : trial_rec) : option Z :=
  match t_reports t with
  | [] => None
  | r :: rs => Some (fold_left Z.max (map fst rs) (fst r))
  end.

Definition is_complete (t : trial_rec) : bool :=
  match t_status t with Complete => true | _ => false end.

Definition completed (ts : list trial_rec) : list trial_rec :=
  List.filter is_complete ts.

(** Modelled from the spec: the decision of the pruning policy (section
    4.3), which the module takes from Optuna's [MedianPruner]. A trial may
    be pruned by the median comparison only once the study has its warm-up
    number of completed trials and the trial has passed its warm-up
    steps. *)
Definition prune (p : MedianPruner) (ts : list trial_rec) (t : trial_rec) : bool :=
  let done := completed ts in
  let n := Z.of_nat (length done) in
  if (n =? 0)%Z then false
  else if (n <? n_startup_trials p)%Z then false
  else
    match last_step t with
    | None => false
    | Some step =>
        if (step <? n_warmup_steps p)%Z then false
        else median_below (map t_reports done) (t_reports t) step
    end.

(** [trial.should_prune()]. *)
Definition should_prune (trial : nat) : M bool :=
  fun s =>
  match trials s !! trial with
  | None => (s, no_trial)
  | Some t => (s, Ret (prune (pruner s) (trials s) t))
  end.

(** ** [objective] *)

(** The interpreter behind [eval], for the texts that are not the name of
    a training entry point: an expression over the locals of [objective],
    the module's globals and the builtins, which may do to the state
    whatever Python code can, and returns or raises. It is a parameter of
    the development, and is given the text, the trial and the locals that
    the loop body holds. *)
Class PyEval := {
  eval_text : string -> nat -> list (string * value) -> M value
}.

Context {Ev : PyEval}.

(** [eval(run_algo + "(config, agent)")] in the scope of [objective]. When
    [run_algo] is the name of a training entry point, that is a name that
    the scope resolves to a callable of the module's globals ([run_td3],
    [run_ddpg]), the expression is the call of that callable on the two
    arguments. Any other text is left to the interpreter. *)
Definition eval_call (f : string) (args : list value) (trial : nat)
    (scope : list (string * value)) : M value :=
  fun s =>
  match globals s f with
  | None => eval_text (f ++ "(config, agent)") trial scope s
  | Some c =>
      let s1 := log (ECall f args) s in
      let '(h, r) := c args (heap s1) in
      (set_heap h s1, r)
  end.

(** [range(n)]. *)
Definition py_range (n : value) : exn + list Z :=
  match as_int n with
  | Some z => inr (map Z.of_nat (seq 0 (Z.to_nat z)))
  | None => inl (Exn TypeError "object cannot be interpreted as an integer")
  end.

Fixpoint for_each {A} (l : list A) (body : A -> M unit) : M unit :=
  match l with
  | [] => ret tt
  | x :: l' => body x ;;; for_each l' body
  end.

(** Lines 69 to 75: the body of the loop over the epochs. *)
Definition loop_body (trial : nat) (run_algo : string) (config agent : value)
    (epoch : Z) : M unit :=
  eval_call run_algo [config; agent] trial
    [("run_algo", VStr run_algo); ("config", config); ("agent", agent);
     ("epoch", VInt epoch)] ;;;
  is_eval <- getattr agent "is_eval" ;;
  if truthy is_eval then
    (mean <- getattr agent "mean" ;;
     report trial mean epoch ;;;
     p <- should_prune trial ;;
     if p : bool then raise (Exn TrialPruned "") else ret tt)
  else ret tt.

(** Lines 64 to 77: the [try] block. The local [agent] is bound to [None]
    at its head and never bound again: the value of the [eval] expression
    is dropped. *)
Definition train (trial : nat) (run_algo : string) (config agent : value) : M bool :=
  max <- attr config ["algorithm"; "max_epoch"] ;;
  assign config ["algorithm"] "max_epoch" (VInt 1) ;;;
  n <- attr config ["algorithm"; "max_epoch"] ;;
  epochs <- lift (py_range n) ;;
  for_each epochs (loop_body trial run_algo config agent) ;;;
  assign config ["algorithm"] "max_epoch" max ;;;
  ret false.

Definition objective (trial : nat) (cfg : value) (run_algo : string) : M value :=
  config <- sample_td3_params trial cfg ;;
  let agent := VNone in
  nan_encountered <-
    try_except (train trial run_algo config agent)
      is_AssertionError
      (fun e => print [VStr (exn_msg e)] ;;; ret true) ;;
  if nan_encountered : bool then ret (VFloat nan)
  else getattr agent "last_mean_reward".

(** ** The study *)

Definition new_trial (s : state) : trial_rec :=
  let d := entropy s (length (trials s)) in
  {| t_draw_int := fst d; t_draw_float := snd d; t_params := [];
     t_reports := []; t_status := Running; t_value := None |}.

Definition finish (st : trial_status) (v : option float) (t : trial_rec) : trial_rec :=
  {| t_draw_int := t_draw_int t; t_draw_float := t_draw_float t;
     t_params := t_params t; t_reports := t_reports t;
     t_status := st; t_value := v |}.

Definition tell (trial : nat) (st : trial_status) (v : option float) (s : state) : state :=
  match trials s !! trial with
  | Some t => set_trials (<[trial := finish st v t]> (trials s)) s
  | None => s
  end.

(** Modelled from the spec: one turn of the search loop (section 4.4 and
    section 7), which the module takes from Optuna's [Study.optimize]. A
    new trial is drawn and handed to the objective; a returned score
    completes the trial, a NaN score or a score that is no number fails
    it, a pruning signal marks it pruned, and any other exception fails the
    trial and leaves the loop. *)
Definition run_trial (func : nat -> M value) : M unit :=
  fun s =>
  let trial := length (trials s) in
  let s0 := set_trials (trials s ++ [new_trial s]) s in
  match func trial s0 with
  | (s1, Ret v) =>
      match as_float v with
      | Some f =>
          if is_nan f then (tell trial Failed None s1, Ret tt)
          else (tell trial Complete (Some f) s1, Ret tt)
      | None => (tell trial Failed None s1, Ret tt)
      end
  | (s1, Raise e) =>
      if is_TrialPruned e then (tell trial Pruned None s1, Ret tt)
      else (tell trial Failed None s1, Raise e)
  end.

Fixpoint optimize_loop (func : nat -> M value) (n : nat) : M unit :=
  match n with
  | O => ret tt
  | S n' => run_trial func ;;; optimize_loop func n'
  end.

(** Modelled from the spec: [study.optimize(func, n_trials, n_jobs,
    timeout)] with one worker and a clock that does not expire; the
    trial-count budget is an integer. *)
Definition optimize (func : nat -> M value) (n_trials n_jobs timeout : value) : M unit :=
  match as_int n_trials with
  | Some n => optimize_loop func (Z.to_nat n)
  | None => raise (Exn TypeError "n_trials")
  end.

(** [MedianPruner(n_startup_trials=.., n_warmup_steps=..)]: negative
    counts are rejected. *)
Definition new_MedianPruner (startup warmup : value) : M MedianPruner :=
  match as_int startup, as_int warmup with
  | Some n, Some w =>
      if (n <? 0)%Z then raise (Exn ValueError "n_startup_trials")
      else if (w <? 0)%Z then raise (Exn ValueError "n_warmup_steps")
      else ret {| n_startup_trials := n; n_warmup_steps := w |}
  | _, _ => raise (Exn TypeError "MedianPruner")
  end.

(** [optuna.create_study(sampler, pruner, direction="maximize")]: an empty
    study with the given pruner; the sampler draws from [entropy]. *)
Definition create_study (p : MedianPruner) : M unit :=
  fun s => (set_pruner p (set_trials [] s), Ret tt).

(** [study.best_trial] under "maximize": the first trial of greatest
    value among the completed ones. *)
Fixpoint best_among (ts : list trial_rec) (best : option (trial_rec * float))
  : option (trial_rec * float) :=
  match ts with
  | [] => best
  | t :: ts' =>
      match t_status t, t_value t, best with
      | Complete, Some v, None => best_among ts' (Some (t, v))
      | Complete, Some v, Some (_, b) =>
          if float_gt v b then best_among ts' (Some (t, v)) else best_among ts' best
      | _, _, _ => best_among ts' best
      end
  end.

Definition best_trial : M (trial_rec * float) :=
  fun s =>
  match best_among (trials s) None with
  | Some b => (s, Ret b)
  | None => (s, Raise (Exn ValueError "No trials are completed yet."))
  end.

Definition param_to_value (v : param_value) : value :=
  match v with PInt z => VInt z | PFloat f => VFloat f end.

(** ** [tune] *)

(** Lines 92 to 94: sampler, pruner and study. *)
Definition tune_create_study (cfg : value) : M unit :=
  _n <- attr cfg ["study"; "n_startup_trials"] ;;
  n <- attr cfg ["study"; "n_startup_trials"] ;;
  w <- attr cfg ["study"; "n_warmup_steps"] ;;
  w3 <- lift (floordiv w (VInt 3)) ;;
  p <- new_MedianPruner n w3 ;;
  create_study p.

(** Lines 96 to 99: the search, left on an interrupt. *)
Definition tune_search (objective : nat -> value -> string -> M value)
    (cfg : value) (run_algo : string) : M unit :=
  try_except
    (n_trials <- attr cfg ["study"; "n_trials"] ;;
     n_jobs <- attr cfg ["study"; "n_jobs"] ;;
     timeout <- attr cfg ["study"; "timeout"] ;;
     optimize (fun trial => objective trial cfg run_algo) n_trials n_jobs timeout)
    is_KeyboardInterrupt
    (fun _ => ret tt).

(** [study.trials] and [study.trials_dataframe().to_csv(file)]. *)
Definition study_trials : M (list trial_rec) :=
  fun s => (s, Ret (trials s)).

Definition to_csv (file : string) (rows : list trial_rec) : M unit :=
  fun s => (log (ECsv file rows) s, Ret tt).

(** Lines 101 to 115: number of trials, best trial, trial table. No user
    attribute is ever attached by this module, so that loop prints nothing. *)
Definition tune_report : M unit :=
  ts <- study_trials ;;
  print [VStr "Number of finished trials: "; VInt (Z.of_nat (length ts))] ;;;
  print [VStr "Best trial:"] ;;;
  b <- best_trial ;;
  print [VStr "  Value: "; VFloat (snd b)] ;;;
  print [VStr "  Params: "] ;;;
  for_each (t_params (fst b))
    (fun kv => print [VStr "    "; VStr (fst kv); VStr ": "; param_to_value (snd kv)]) ;;;
  print [VStr "  User attrs:"] ;;;
  rows <- study_trials ;;
  to_csv "study_results_td3_swimmer.csv" rows.

(** Lines 117 to 121: the two figures, built by the rendering library (which
    may refuse a study) and then shown. *)
Definition plot (fig : string) : M unit :=
  fun s =>
  match render s fig (trials s) with
  | Some e => (s, Raise e)
  | None => (s, Ret tt)
  end.

Definition tune_plots : M unit :=
  plot "optimization_history" ;;;
  plot "param_importances" ;;;
  (fun s => (log (EShow "optimization_history") s, Ret tt)) ;;;
  (fun s => (log (EShow "param_importances") s, Ret tt)).

Definition tune (objective : nat -> value -> string -> M value)
    (cfg : value) (run_algo : string) : M unit :=
  tune_create_study cfg ;;;
  tune_search objective cfg run_algo ;;;
  tune_report ;;;
  tune_plots.

(** ** [main] *)

(** [argv[i]]. *)
Definition argv_get (argv : list string) (i : nat) : M string :=
  match argv !! i with
  | Some a => ret a
  | None => raise (Exn (OtherError "IndexError") "list index out of range")
  end.

(** [OmegaConf.load(path)]: the loader is a callable of the module's
    globals, which builds the configuration in the heap or raises. *)
Definition load (path : string) : M value :=
  fun s =>
  match globals s "OmegaConf.load" with
  | None => (s, Raise (Exn NameError "OmegaConf"))
  | Some c =>
      let '(h, r) := c [VStr path] (heap s) in
      (set_heap h s, r)
  end.

Definition main (argv : list string) : M unit :=
  file <- argv_get argv 0 ;;
  cfg <- load ("./configs/" ++ file) ;;
  run_algo <- argv_get argv 1 ;;
  tune objective cfg run_algo.

End Model.

Notation "x <- m ;; k" := (bind m (fun x => k))
  (at level 100, m at next level, right associativity).
Notation "m ;;; k" := (bind m (fun _ => k))
  (at level 100, right associativity).

(** ** An instance to run the model on: exact rationals and NaN

    Scores and drawn values of the examples are rationals; [None] is NaN.
    The median rule is the one of the pruner: the best value the trial has
    reported so far against the median of the values that the completed
    trials reported at the same step. *)

Module Exact.

Import QArith.QArith Qround.
Local Close Scope Q_scope.

Fixpoint insert_sorted (x : Q) (l : list Q) : list Q :=
  match l with
  | [] => [x]
  | y :: l' => if Qle_bool x y then x :: l else y :: insert_sorted x l'
  end.

Definition sort (l : list Q) : list Q := fold_right insert_sorted [] l.

Definition median (l : list Q) : option Q :=
  let s := sort l in
  let n := length s in
  if Nat.even n then
    match s !! (n / 2 - 1)%nat, s !! (n / 2)%nat with
    | Some x, Some y => Some (Qred ((x + y) / 2))
    | _, _ => None
    end
  else s !! (n / 2)%nat.

Definition value_at (step : Z) (rs : list (Z * option Q)) : list Q :=
  flat_map (fun r => if (fst r =? step)%Z
                     then match snd r with Some q => [q] | None => [] end
                     else []) rs.

Fixpoint best_value (rs : list (Z * option Q)) : option Q :=
  match rs with
  | [] => None
  | (_, None) :: rs' => best_value rs'
  | (_, Some q) :: rs' =>
      match best_value rs' with
      | Some b => Some (if Qle_bool q b then b else q)
      | None => Some q
      end
  end.

Definition below_median (others : list (list (Z * option Q)))
    (mine : list (Z * option Q)) (step : Z) : bool :=
  match best_value mine with
  | None => true
  | Some b =>
      match median (flat_map (value_at step) others) with
      | Some m => negb (Qle_bool m b)
      | None => false
      end
  end.

#[export] Instance exact_float : PyFloat := {|
  float := option Q;
  nan := None;
  is_nan := fun f => match f with None => true | Some _ => false end;
  float_gt := fun a b =>
    match a, b with
    | Some x, Some y => negb (Qle_bool x y)
    | _, _ => false
    end;
  float_truth := fun f =>
    match f with Some x => negb (Qeq_bool x 0) | None => true end;
  float_of_int := fun z => Some (inject_Z z);
  float_pow := fun b e => Some (Qred (Qpower (inject_Z b) e));
  float_floordiv := fun a b =>
    match a, b with
    | Some x, Some y =>
        if Qeq_bool y 0
        then inl (Exn ZeroDivisionError "float floor division by zero")
        else inr (Some (inject_Z (Qfloor (x / y))))
    | _, _ => inr None
    end;
  float_trunc := fun f =>
    match f with
    | Some x => inr (if Qle_bool 0 x then Qfloor x else Qceiling x)
    | None => inl (Exn ValueError "cannot convert float NaN to integer")
    end;
  median_below := below_median
|}.

(** The interpreter of the examples knows no name but the entry points. *)
#[export] Instance exact_eval : PyEval := {|
  eval_text := fun text _ _ => raise (Exn NameError text)
|}.

Definition num (q : Q) : value := VFloat (Some q).

(** The float [n / d]. *)
Definition ratio (n : Z) (d : positive) : float := Some (Qmake n d).

Definition obj (l : list (string * value)) : gmap string value := list_to_map l.

Definition bounds (lo hi : value) : gmap string value :=
  obj [("min", lo); ("max", hi)].

(** A base configuration: address 0 is the root, 1 the [algorithm] node,
    2 and 3 the optimizers, 4 the [study] node, 11 the [architecture] node;
    the other nodes are the [min]/[max] pairs of the search space. *)
Definition base_heap : list (gmap string value) :=
  [ obj [("algorithm", VRef 1); ("actor_optimizer", VRef 2);
         ("critic_optimizer", VRef 3); ("study", VRef 4)];
    obj [("discount_factor", VRef 5); ("n_steps", VRef 6);
         ("buffer_size", VRef 7); ("batch_size", VRef 8);
         ("tau_target", VRef 9); ("action_noise", VRef 10);
         ("architecture", VRef 11); ("n_timesteps", VInt 1000000);
         ("max_epoch", VInt 7)];
    obj [("lr", VRef 14)];
    obj [("lr", VRef 15)];
    obj [("n_startup_trials", VInt 1); ("n_warmup_steps", VInt 3);
         ("n_trials", VInt 5); ("n_jobs", VInt 1); ("timeout", VNone)];
    bounds (num (9 # 10)) (num (9999 # 10000));
    bounds (VInt 7) (VInt 9);
    bounds (VInt 100000) (VInt 1000000);
    bounds (VInt 100) (VInt 300);
    bounds (num (5 # 1000)) (num (5 # 100));
    bounds (num (1 # 1000)) (num (1 # 10));
    obj [("actor_hidden_size", VRef 12); ("critic_hidden_size", VRef 13)];
    bounds (VInt 5) (VInt 8);
    bounds (VInt 5) (VInt 8);
    bounds (num (1 # 100000)) (num 1);
    bounds (num (1 # 100000)) (num 1) ].

Definition cfg0 : value := VRef 0.

(** A draw source that always answers the lower bound. *)
Definition low_int : string -> value -> value -> exn + Z :=
  fun _ lo hi =>
  match lo, hi with
  | VInt a, VInt b =>
      if (a <=? b)%Z then inr a else inl (Exn ValueError "low > high")
  | _, _ => inl (Exn TypeError "low")
  end.

Definition low_float : string -> value -> value -> exn + float :=
  fun _ lo _ =>
  match lo with VFloat f => inr f | _ => inl (Exn TypeError "low") end.

Definition fresh_trial : trial_rec :=
  {| t_draw_int := low_int; t_draw_float := low_float; t_params := [];
     t_reports := []; t_status := Running; t_value := None |}.

(** An agent object as the training entry point would return it. *)
Definition agent_node : gmap string value :=
  obj [("is_eval", VBool true); ("mean", num 2); ("last_mean_reward", num (5 # 2))].

(** Three training entry points: one that trains and returns an agent, one
    that fails its value check, one that is interrupted. *)
Definition run_ok : callable :=
  fun _ h => ((h ++ [agent_node])%list, Ret (VRef (length h))).

Definition run_nan : callable :=
  fun _ h => (h, Raise (Exn AssertionError "nan in parameters")).

Definition run_interrupted : callable :=
  fun _ h => (h, Raise (Exn KeyboardInterrupt "")).

Definition entry_points (name : string) : option callable :=
  if String.eqb name "run_td3" then Some run_ok
  else if String.eqb name "run_ddpg" then Some run_nan
  else if String.eqb name "run_stop" then Some run_interrupted
  else None.

Definition st0 : state :=
  {| heap := base_heap; trials := [fresh_trial];
     pruner := {| n_startup_trials := 5; n_warmup_steps := 0 |};
     entropy := fun _ => (low_int, low_float);
     globals := entry_points;
     render := fun _ _ => None;
     trace := [] |}.

(** The state and the configuration after one call of the sampler: the
    objects of the copy are at the addresses 16 to 31, its [algorithm]
    node at 17. *)
Definition sampled0 : state := fst (sample_td3_params 0 cfg0 st0).

Definition config0 : value := VRef 16.

(** The heap in which the loop of [objective] starts, and the heap that
    the entry point [run_td3] of the example leaves. *)
Definition entered_heap : list (gmap string value) :=
  store 17 "max_epoch" (VInt 1) (heap sampled0).

Definition trained_heap : list (gmap string value) :=
  (entered_heap ++ [agent_node])%list.

(** An objective with three scores to give, interrupted at its fourth
    trial. *)
Definition demo_scores (trial : nat) : option Q :=
  match trial with
  | 0 => Some 1%Q
  | 1 => Some (5 # 2)%Q
  | 2 => Some (3 # 10)%Q
  | _ => None
  end.

Definition demo_objective (trial : nat) (cfg : value) (run_algo : string) : M value :=
  match demo_scores trial with
  | Some q => ret (num q)
  | None => raise (Exn KeyboardInterrupt "")
  end.

Definition demo_search : nat -> M value :=
  fun trial => demo_objective trial cfg0 "run_td3".

(** The study as [tune] creates it, after three trials, and when the
    interrupt leaves the loop. *)
Definition study0 : state := fst (tune_create_study cfg0 st0).

Definition study3 : state := fst (optimize_loop demo_search 3 study0).

Definition study_stop : state := fst (optimize_loop demo_search 2 study3).

Definition best_demo : trial_rec :=
  {| t_draw_int := low_int; t_draw_float := low_float; t_params := [];
     t_reports := []; t_status := Complete; t_value := Some (Some (5 # 2)%Q) |}.

(** A completed trial that reported 5 at steps 0 and 1, and a running one
    that reported 1 at the same steps. *)
Definition done_trial : trial_rec :=
  {| t_draw_int := low_int; t_draw_float := low_float; t_params := [];
     t_reports := [(0%Z, Some 5%Q); (1%Z, Some 5%Q)];
     t_status := Complete; t_value := Some (Some 5%Q) |}.

Definition slow_trial : trial_rec :=
  {| t_draw_int := low_int; t_draw_float := low_float; t_params := [];
     t_reports := [(0%Z, Some 1%Q); (1%Z, Some 1%Q)];
     t_status := Running; t_value := None |}.

(** Further configurations and runs for the examples: a base configuration
    without the key [max_epoch], one whose [n_steps] bounds are in the wrong
    order, one with a negative warm-up trial count. *)
Definition root_nd : gmap string value := default ∅ (base_heap !! 0).

Definition algorithm_nd : gmap string value := default ∅ (base_heap !! 1).

Definition st_no_max_epoch : state :=
  set_heap (<[1 := delete "max_epoch" algorithm_nd]> base_heap) st0.

Definition sampled_no_max_epoch : state :=
  fst (sample_td3_params 0 cfg0 st_no_max_epoch).

Definition st_bad_steps : state :=
  set_heap (<[6 := bounds (VInt 9) (VInt 7)]> base_heap) st0.

Definition st_negative : state :=
  set_heap (<[4 := obj [("n_startup_trials", VInt (-1)); ("n_warmup_steps", VInt 3);
                        ("n_trials", VInt 5); ("n_jobs", VInt 1);
                        ("timeout", VNone)]]> base_heap) st0.

(** An objective that is interrupted at once, and the study it leaves. *)
Definition stop_objective (trial : nat) (cfg : value) (run_algo : string) : M value :=
  raise (Exn KeyboardInterrupt "").

Definition study_stopped : state :=
  fst (tune_search stop_objective cfg0 "run_td3" study0).

Definition stopped_trial : trial_rec :=
  {| t_draw_int := low_int; t_draw_float := low_float; t_params := [];
     t_reports := []; t_status := Failed; t_value := None |}.

(** The study after the search with the objective of the module and the
    entry point that returns an agent. *)
Definition study_crashed : state :=
  fst (optimize_loop (fun trial => objective trial cfg0 "run_td3") (Z.to_nat 5) study0).

(** The study after the search with the demo objective. *)
Definition study_demo : state :=
  fst (tune_search demo_objective cfg0 "run_td3" study0).

Definition demo_best : trial_rec * float :=
  default (best_demo, None) (best_among (trials study_demo) None).

(** A command line: the loader builds the base configuration in an empty
    heap. *)
Definition load_base : callable :=
  fun _ h => ((h ++ base_heap)%list, Ret (VRef (length h))).

Definition st_cli : state :=
  {| heap := []; trials := [];
     pruner := {| n_startup_trials := 5; n_warmup_steps := 0 |};
     entropy := fun _ => (low_int, low_float);
     globals := fun name =>
       if String.eqb name "OmegaConf.load" then Some load_base
       else entry_points name;
     render := fun _ _ => None;
     trace := [] |}.

End Exact.

(** ** Auxiliary definitions for the proofs *)

Section Aux.

Context {F : PyFloat}.

(** [avoids k p]: the key [k] does not occur on the path [p]. *)
Definition avoids (k : string) (p : list string) : bool :=
  forallb (fun k' => negb (String.eqb k k')) p.

(** The state [s0] with heap [h] and with [t] as the record of trial [tr]. *)
Definition at_ (tr : nat) (h : list (gmap string value)) (t : trial_rec)
    (s0 : state) : state :=
  set_heap h (set_trials (<[tr := t]> (trials s0)) s0).

(** The draw source of a trial honours the range of an integer
    distribution. *)
Definition int_draws_in_range (t : trial_rec) : Prop :=
  forall name a b e,
    t_draw_int t name (VInt a) (VInt b) = inr e -> (a <= e <= b)%Z.

(** A value is the power of two of an exponent within [[a, b]]. *)
Definition pow2_within (a b : Z) (v : value) : Prop :=
  exists e, (a <= e <= b)%Z /\ v = py_pow 2 e /\
    ((0 <= a)%Z -> v = VInt (2 ^ e) /\ (2 ^ a <= 2 ^ e <= 2 ^ b)%Z).

(** The draws of one call of [sample_td3_params], in the order of the
    source, and the four nodes that its assignments write to. *)
Record td3_draws := {
  d_discount_factor : float;
  d_n_steps : Z;
  d_buffer_size : Z;
  d_batch_size : Z;
  d_tau_target : float;
  d_action_std : float;
  d_actor_hidden_size : Z;
  d_critic_hidden_size : Z;
  d_actor_lr : float;
  d_critic_lr : float
}.

Record td3_nodes := {
  a_algorithm : nat;
  a_architecture : nat;
  a_actor_optimizer : nat;
  a_critic_optimizer : nat
}.

Definition td3_params (d : td3_draws) : list (string * param_value) :=
  [("discount_factor", PFloat (d_discount_factor d));
   ("n_steps", PInt (d_n_steps d));
   ("buffer_size", PInt (d_buffer_size d));
   ("batch_size", PInt (d_batch_size d));
   ("tau_target", PFloat (d_tau_target d));
   ("action_std", PFloat (d_action_std d));
   ("actor_hidden_size", PInt (d_actor_hidden_size d));
   ("critic_hidden_size", PInt (d_critic_hidden_size d));
   ("actor_lr", PFloat (d_actor_lr d));
   ("critic_lr", PFloat (d_critic_lr d))].

Definition with_params (ps : list (string * param_value)) (t : trial_rec) : trial_rec :=
  {| t_draw_int := t_draw_int t; t_draw_float := t_draw_float t;
     t_params := ps; t_reports := t_reports t;
     t_status := t_status t; t_value := t_value t |}.

(** The heap after the eleven stores that precede the one of [max_epochs]. *)
Definition td3_stores (n : td3_nodes) (d : td3_draws)
    (h0 : list (gmap string value)) : list (gmap string value) :=
  let ahs := py_pow 2 (d_actor_hidden_size d) in
  let chs := py_pow 2 (d_critic_hidden_size d) in
  store (a_algorithm n) "n_steps" (py_pow 2 (d_n_steps d))
  (store (a_critic_optimizer n) "lr" (VFloat (d_critic_lr d))
  (store (a_actor_optimizer n) "lr" (VFloat (d_actor_lr d))
  (store (a_architecture n) "critic_hidden_size" (VList [chs; chs])
  (store (a_architecture n) "actor_hidden_size" (VList [ahs; ahs])
  (store (a_algorithm n) "action_noise" (VFloat (d_action_std d))
  (store (a_algorithm n) "tau_target" (VFloat (d_tau_target d))
  (store (a_algorithm n) "batch_size" (VInt (d_batch_size d))
  (store (a_algorithm n) "buffer_size" (VInt (d_buffer_size d))
  (store (a_algorithm n) "discount_factor" (VFloat (d_discount_factor d))
     h0))))))))).

Definition td3_heap (n : td3_nodes) (d : td3_draws) (m : value)
    (h0 : list (gmap string value)) : list (gmap string value) :=
  store (a_algorithm n) "max_epochs" m (td3_stores n d h0).

(** What a successful call of [sample_td3_params] on a fresh trial [t] has
    done, from the state [s] to the state [s']: the assignments go to four
    objects of the copy, which are not objects of the heap of [s];
    [lo]/[hi] are the exponent bounds as they were read. *)
Record td3_run (tr : nat) (cfg : value) (s s' : state) (params : value)
    (t : trial_rec) (c : nat) (root : gmap string value)
    (n : td3_nodes) (d : td3_draws)
    (lo1 hi1 lo2 hi2 lo3 hi3 nt q m : value) : Prop := {
  run_cfg : cfg = VRef c;
  run_root : heap s !! c = Some root;
  run_params : params = VRef (c + length (heap s));
  run_fresh :
    length (heap s) <= a_algorithm n /\ length (heap s) <= a_architecture n /\
    length (heap s) <= a_actor_optimizer n /\ length (heap s) <= a_critic_optimizer n;
  run_algorithm :
    resolve (copied (heap s)) params ["algorithm"] = inr (VRef (a_algorithm n));
  run_architecture :
    resolve (copied (heap s)) params ["algorithm"; "architecture"]
    = inr (VRef (a_architecture n));
  run_actor_optimizer :
    resolve (copied (heap s)) params ["actor_optimizer"]
    = inr (VRef (a_actor_optimizer n));
  run_critic_optimizer :
    resolve (copied (heap s)) params ["critic_optimizer"]
    = inr (VRef (a_critic_optimizer n));
  run_algorithm_node : is_Some (copied (heap s) !! a_algorithm n);
  run_architecture_node : is_Some (copied (heap s) !! a_architecture n);
  run_actor_node : is_Some (copied (heap s) !! a_actor_optimizer n);
  run_critic_node : is_Some (copied (heap s) !! a_critic_optimizer n);
  run_lo1 : resolve (copied (heap s)) cfg ["algorithm"; "n_steps"; "min"] = inr lo1;
  run_hi1 : resolve (copied (heap s)) cfg ["algorithm"; "n_steps"; "max"] = inr hi1;
  run_e1 : t_draw_int t "n_steps" lo1 hi1 = inr (d_n_steps d);
  run_lo2 :
    resolve (copied (heap s)) cfg
      ["algorithm"; "architecture"; "actor_hidden_size"; "min"] = inr lo2;
  run_hi2 :
    resolve (copied (heap s)) cfg
      ["algorithm"; "architecture"; "actor_hidden_size"; "max"] = inr hi2;
  run_e2 : t_draw_int t "actor_hidden_size" lo2 hi2 = inr (d_actor_hidden_size d);
  run_lo3 :
    resolve (copied (heap s)) cfg
      ["algorithm"; "architecture"; "critic_hidden_size"; "min"] = inr lo3;
  run_hi3 :
    resolve (copied (heap s)) cfg
      ["algorithm"; "architecture"; "critic_hidden_size"; "max"] = inr hi3;
  run_e3 : t_draw_int t "critic_hidden_size" lo3 hi3 = inr (d_critic_hidden_size d);
  run_nt : resolve (copied (heap s)) params ["algorithm"; "n_timesteps"] = inr nt;
  run_q : floordiv nt (py_pow 2 (d_n_steps d)) = inr q;
  run_m : py_int q = inr m;
  run_state :
    s' = at_ tr (td3_heap n d m (copied (heap s))) (with_params (td3_params d) t) s
}.

(** The states of one run of [objective] past the sampling: [entered] is
    the state in which the loop starts, with [max_epoch] overwritten in the
    node [a] of [config.algorithm]; [stepped] is the state after the call of
    the entry point, which left the heap [h']. *)
Definition entered (a : nat) (s1 : state) : state :=
  set_heap (store a "max_epoch" (VInt 1) (heap s1)) s1.

Definition stepped (run_algo : string) (config : value) (a : nat)
    (h' : list (gmap string value)) (s1 : state) : state :=
  set_heap h' (log (ECall run_algo [config; VNone]) (entered a s1)).

(** The state [s] with the events [es] appended to its trace. *)
Definition logs (es : list event) (s : state) : state :=
  {| heap := heap s; trials := trials s; pruner := pruner s;
     entropy := entropy s; globals := globals s; render := render s;
     trace := trace s ++ es |}.

(** What [tune_report] prints and exports for the trials [ts] with best
    trial [b]. *)
Definition report_events (ts : list trial_rec) (b : trial_rec * float) : list event :=
  ([EPrint [VStr "Number of finished trials: "; VInt (Z.of_nat (length ts))];
    EPrint [VStr "Best trial:"];
    EPrint [VStr "  Value: "; VFloat (snd b)];
    EPrint [VStr "  Params: "]]
   ++ map (fun kv => EPrint [VStr "    "; VStr (fst kv); VStr ": ";
                             param_to_value (snd kv)]) (t_params (fst b))
   ++ [EPrint [VStr "  User attrs:"];
       ECsv "study_results_td3_swimmer.csv" ts])%list.

(** What a program may do to the study while it works for the trial [tr]:
    it keeps the number of trials, the records of the other trials, the
    reports, status and value of the trial itself, the pruner and the
    globals; a [quiet] program leaves the trace alone as well. *)
Definition frame (quiet : bool) (tr : nat) (s s' : state) : Prop :=
  length (trials s') = length (trials s) /\
  (forall i, i <> tr -> trials s' !! i = trials s !! i) /\
  (forall t, trials s !! tr = Some t ->
     exists t', trials s' !! tr = Some t' /\ t_reports t' = t_reports t /\
                t_status t' = t_status t /\ t_value t' = t_value t) /\
  pruner s' = pruner s /\ globals s' = globals s /\
  (quiet = true -> trace s' = trace s).

(** The same for a program that calls the training entry point [run]: the
    frame holds from the states in which that name is bound. *)
Definition entry_frame (run : string) (tr : nat) (s s' : state) : Prop :=
  is_Some (globals s run) -> frame false tr s s'.

(** Every run of [m], returning or raising, is within the relation [R]. *)
Definition keeps {A} (R : state -> state -> Prop) (m : M A) : Prop :=
  forall s s' r, m s = (s', r) -> R s s'.

(** No trial of the list is completed. *)
Definition no_complete (ts : list trial_rec) : Prop :=
  forall i t, ts !! i = Some t -> t_status t <> Complete.

(** [above n v]: every reference in the value [v] is to an address from [n]
    on; [plain v]: the value holds no reference at all. *)
Fixpoint above (n : nat) (v : value) : bool :=
  match v with
  | VRef a => (n <=? a)%nat
  | VList l => forallb (above n) l
  | _ => true
  end.

Fixpoint plain (v : value) : bool :=
  match v with
  | VRef _ => false
  | VList l => forallb plain l
  | _ => true
  end.

(** From the address [n] on, the objects of [h] refer to objects from [n]
    on only. *)
Definition closed_above (n : nat) (h : list (gmap string value)) : Prop :=
  forall a nd k v,
    n <= a -> h !! a = Some nd -> nd !! k = Some v -> above n v = true.

(** The heap [h'] holds every object of [h], unchanged and at its address. *)
Definition extends (h h' : list (gmap string value)) : Prop :=
  forall a nd, h !! a = Some nd -> h' !! a = Some nd.

(** The assignments [o.p1...pn.k = x] of a list, one after the other. *)
Definition assign_each (o : value) (ws : list (list string * string * value))
  : M unit :=
  for_each ws (fun w => assign o (fst (fst w)) (snd (fst w)) (snd w)).

(** The keys that [sample_td3_params] assigns to, and the paths that use
    none of them. *)
Definition td3_written : list string :=
  ["discount_factor"; "buffer_size"; "batch_size"; "tau_target";
   "action_noise"; "actor_hidden_size"; "critic_hidden_size"; "lr";
   "n_steps"; "max_epochs"].

Definition unwritten (p : list string) : bool :=
  forallb (fun k => avoids k p) td3_written.

Definition is_call (e : event) : bool :=
  match e with ECall _ _ => true | _ => false end.

(** The number of calls of a training entry point recorded in a trace. *)
Definition calls (tr : list event) : nat := length (List.filter is_call tr).

(** An objective that leaves the records of the other trials alone. *)
Definition local_objective (func : nat -> M value) : Prop :=
  forall trial s s' r, func trial s = (s', r) ->
    length (trials s') = length (trials s) /\
    forall i, i <> trial -> trials s' !! i = trials s !! i.

End Aux.

(** * Properties *)

Section Facts.

Context {F : PyFloat} {Ev : PyEval}.

Implicit Types (h : list (gmap string value)) (o v x : value) (k : string)
  (p : list string) (s : state) (t : trial_rec).

(** ** The object store *)

Lemma store_length a k x h : length (store a k x h) = length h.
Proof.
  unfold store. destruct (h !! a); [apply length_insert | reflexivity].
Qed.

Lemma store_is_Some a k x h b : is_Some (store a k x h !! b) <-> is_Some (h !! b).
Proof.
  rewrite !lookup_lt_is_Some, store_length. reflexivity.
Qed.

Lemma lookup_attr_store_ne a k x h o k' :
  k <> k' -> lookup_attr (store a k x h) o k' = lookup_attr h o k'.
Proof.
  intros Hne. unfold store.
  destruct (h !! a) as [nd|] eqn:Ha; [|reflexivity].
  destruct o as [| | | | | |b]; try reflexivity. simpl.
  destruct (decide (b = a)) as [->|Hb].
  - rewrite list_lookup_insert_eq by (eapply lookup_lt_Some; eauto).
    rewrite Ha, lookup_insert_ne by assumption. reflexivity.
  - rewrite list_lookup_insert_ne by congruence. reflexivity.
Qed.

Lemma lookup_attr_store_eq a k x h :
  is_Some (h !! a) -> lookup_attr (store a k x h) (VRef a) k = inr x.
Proof.
  intros [nd Ha]. unfold store. rewrite Ha. simpl.
  rewrite list_lookup_insert_eq by (eapply lookup_lt_Some; eauto).
  rewrite lookup_insert_eq. reflexivity.
Qed.

Lemma avoids_cons k k' p :
  avoids k (k' :: p) = true -> k <> k' /\ avoids k p = true.
Proof.
  unfold avoids. simpl. rewrite andb_true_iff, negb_true_iff.
  intros [H1 H2]. split; [|assumption]. apply String.eqb_neq. assumption.
Qed.

Lemma resolve_store_other a k x h p : forall o,
  avoids k p = true -> resolve (store a k x h) o p = resolve h o p.
Proof.
  induction p as [|k' p IH]; intros o Hav; [reflexivity|].
  apply avoids_cons in Hav as [Hne Hav]. simpl.
  rewrite lookup_attr_store_ne by assumption.
  destruct (lookup_attr h o k'); [reflexivity | apply IH; assumption].
Qed.

Lemma resolve_app h p q : forall o,
  resolve h o (p ++ q) =
  match resolve h o p with inr v => resolve h v q | inl e => inl e end.
Proof.
  induction p as [|k p IH]; intros o; simpl; [reflexivity|].
  destruct (lookup_attr h o k); [reflexivity | apply IH].
Qed.

Lemma resolve_single h o k : resolve h o [k] = lookup_attr h o k.
Proof. simpl. destruct (lookup_attr h o k); reflexivity. Qed.

Lemma resolve_store_same a k x h p o :
  avoids k p = true -> resolve h o p = inr (VRef a) -> is_Some (h !! a) ->
  resolve (store a k x h) o (p ++ [k]) = inr x.
Proof.
  intros Hav Hres Ha. rewrite resolve_app, resolve_store_other, Hres by assumption.
  rewrite resolve_single. apply lookup_attr_store_eq. assumption.
Qed.

Lemma lookup_attr_alloc h l o k v :
  lookup_attr h o k = inr v -> lookup_attr (h ++ l) o k = inr v.
Proof.
  destruct o as [| | | | | |a]; simpl; try discriminate.
  destruct (h !! a) as [n|] eqn:Ha; [|discriminate].
  rewrite (lookup_app_l_Some _ _ _ _ Ha). trivial.
Qed.

Lemma resolve_alloc h l p : forall o v,
  resolve h o p = inr v -> resolve (h ++ l) o p = inr v.
Proof.
  induction p as [|k p IH]; intros o v; simpl; [trivial|].
  destruct (lookup_attr h o k) as [e|w] eqn:Ew; [discriminate|].
  rewrite (lookup_attr_alloc _ l _ _ _ Ew). apply IH.
Qed.

(** ** The deep copy *)

(** The objects of the source are where they were. *)
Lemma lookup_copied_old h a nd : h !! a = Some nd -> copied h !! a = Some nd.
Proof. intros Ha. unfold copied. apply lookup_app_l_Some. assumption. Qed.

Lemma resolve_copied_old h p o v :
  resolve h o p = inr v -> resolve (copied h) o p = inr v.
Proof. apply resolve_alloc. Qed.

(** The duplicate of the object at [a] is at [a + length h]. *)
Lemma lookup_copied h a :
  copied h !! (a + length h) = (fun nd : gmap string value => relocate (length h) <$> nd) <$> h !! a.
Proof.
  unfold copied. rewrite lookup_app_r by lia.
  replace (a + length h - length h) with a by lia.
  apply list_lookup_fmap.
Qed.

Lemma lookup_attr_copied h a k :
  lookup_attr (copied h) (VRef (a + length h)) k =
  map_inr (relocate (length h)) (lookup_attr h (VRef a) k).
Proof.
  unfold lookup_attr. rewrite lookup_copied.
  destruct (h !! a) as [nd|]; simpl; [|reflexivity].
  rewrite lookup_fmap. destruct (nd !! k); reflexivity.
Qed.

(** The copy has the shape of its source: a path resolves from the copy of
    an object to the copy of what it resolves to from the object, and
    fails from the one as it fails from the other. *)
Lemma resolve_copied h p : forall o,
  resolve (copied h) (relocate (length h) o) p =
  map_inr (relocate (length h)) (resolve h o p).
Proof.
  induction p as [|k p IH]; intros o; [reflexivity|].
  destruct o as [| | | | | |a]; try reflexivity.
  cbn [relocate resolve]. rewrite lookup_attr_copied.
  destruct (lookup_attr h (VRef a) k) as [e|w]; [reflexivity|].
  cbn [map_inr]. apply IH.
Qed.

Lemma resolve_copy h c p :
  resolve (copied h) (VRef (c + length h)) p =
  map_inr (relocate (length h)) (resolve h (VRef c) p).
Proof. apply (resolve_copied h p (VRef c)). Qed.

(** An object reached from the copy is a duplicate. *)
Lemma resolve_copy_ref h c p a :
  resolve (copied h) (VRef (c + length h)) p = inr (VRef a) ->
  length h <= a /\ resolve h (VRef c) p = inr (VRef (a - length h)).
Proof.
  rewrite resolve_copy.
  destruct (resolve h (VRef c) p) as [e|w]; [discriminate|].
  destruct w as [| | | | | |b]; try discriminate.
  cbn [map_inr relocate]. intros H. injection H as <-.
  split; [lia|]. do 2 f_equal. lia.
Qed.

Lemma above_relocate n : forall v, above n (relocate n v) = true.
Proof.
  fix IH 1. intros [| | | | |l|a]; try reflexivity.
  - cbn [relocate above]. induction l as [|w l IHl]; [reflexivity|].
    cbn [map forallb]. rewrite IH, IHl. reflexivity.
  - cbn [relocate above]. apply Nat.leb_le. lia.
Qed.

Lemma relocate_plain n : forall v, plain v = true -> relocate n v = v.
Proof.
  fix IH 1. intros [| | | | |l|a]; try reflexivity; [|discriminate].
  cbn [relocate plain]. intros Hl. f_equal.
  induction l as [|w l IHl]; [reflexivity|].
  cbn [map forallb] in Hl |- *. apply andb_true_iff in Hl as [Hw Hl].
  rewrite (IH w Hw), (IHl Hl). reflexivity.
Qed.

Lemma closed_above_copied h : closed_above (length h) (copied h).
Proof.
  intros a nd k v Hle Ha Hk.
  replace a with (a - length h + length h) in Ha by lia.
  rewrite lookup_copied in Ha.
  destruct (h !! (a - length h)) as [nd0|]; [|discriminate].
  injection Ha as <-. rewrite lookup_fmap in Hk.
  destruct (nd0 !! k) as [w|]; [|discriminate].
  injection Hk as <-. apply above_relocate.
Qed.

Lemma lookup_store_ne a b k x h : a <> b -> store a k x h !! b = h !! b.
Proof.
  intros Hne. unfold store. destruct (h !! a); [|reflexivity].
  apply list_lookup_insert_ne. assumption.
Qed.

Lemma lookup_store_eq a k x h nd :
  store a k x h !! a = Some nd ->
  exists nd0, h !! a = Some nd0 /\ nd = <[k := x]> nd0.
Proof.
  unfold store. destruct (h !! a) as [nd0|] eqn:Ha.
  - rewrite list_lookup_insert_eq by (eapply lookup_lt_Some; eauto).
    intros H. injection H as <-. eauto.
  - rewrite Ha. discriminate.
Qed.

Lemma closed_above_store n a k x h :
  closed_above n h -> above n x = true -> closed_above n (store a k x h).
Proof.
  intros Hcl Hx b nd k' v Hle Hb Hk.
  destruct (decide (a = b)) as [->|Hne].
  - apply lookup_store_eq in Hb as (nd0 & Hb & ->).
    destruct (decide (k = k')) as [->|Hk'].
    + rewrite lookup_insert_eq in Hk. injection Hk as <-. assumption.
    + rewrite lookup_insert_ne in Hk by assumption. eapply Hcl; eauto.
  - rewrite lookup_store_ne in Hb by assumption. eapply Hcl; eauto.
Qed.

(** What is reached from an object of the copy is an object of the copy. *)
Lemma resolve_closed_above n h p : forall o v,
  closed_above n h -> above n o = true -> resolve h o p = inr v ->
  above n v = true.
Proof.
  induction p as [|k p IH]; intros o v Hcl Ho; simpl.
  - intros H. injection H as <-. assumption.
  - destruct (lookup_attr h o k) as [e|w] eqn:Ew; [discriminate|].
    apply IH; [assumption|].
    destruct o as [| | | | | |a]; try discriminate. simpl in Ew, Ho.
    destruct (h !! a) as [nd|] eqn:Ha; [|discriminate].
    destruct (nd !! k) as [w'|] eqn:Hk; [|discriminate].
    injection Ew as <-. apply Nat.leb_le in Ho. eapply Hcl; eauto.
Qed.

Lemma extends_copied h : extends h (copied h).
Proof. intros a nd. apply lookup_copied_old. Qed.

(** A store to an object that [h] does not hold leaves the objects of [h]
    as they are. *)
Lemma extends_store h h1 a k x :
  extends h h1 -> length h <= a -> extends h (store a k x h1).
Proof.
  intros Hext Hle b nd Hb.
  pose proof (lookup_lt_Some _ _ _ Hb) as Hlt.
  rewrite lookup_store_ne by lia. apply Hext. assumption.
Qed.

Lemma resolve_extends h h' p : forall o v,
  extends h h' -> resolve h o p = inr v -> resolve h' o p = inr v.
Proof.
  induction p as [|k p IH]; intros o v Hext; simpl; [trivial|].
  destruct (lookup_attr h o k) as [e|w] eqn:Ew; [discriminate|].
  destruct o as [| | | | | |a]; try discriminate. simpl in Ew |- *.
  destruct (h !! a) as [nd|] eqn:Ha; [|discriminate].
  rewrite (Hext _ _ Ha). destruct (nd !! k) as [w'|]; [|discriminate].
  injection Ew as <-. apply IH. assumption.
Qed.

(** ** Running the monad *)

Lemma bind_Ret {A B} (m : M A) (f : A -> M B) s s' (b : B) :
  bind m f s = (s', Ret b) ->
  exists s1 a, m s = (s1, Ret a) /\ f a s1 = (s', Ret b).
Proof.
  unfold bind. destruct (m s) as [s1 [a|e]]; [eauto | discriminate].
Qed.

Lemma lift_Ret {A} (r : exn + A) s s' (a : A) :
  lift r s = (s', Ret a) -> s' = s /\ r = inr a.
Proof.
  destruct r; unfold lift, raise, ret; intros H; inversion H; auto.
Qed.

Lemma at_eta tr s t : trials s !! tr = Some t -> forall h, set_heap h s = at_ tr h t s.
Proof.
  intros Ht h. unfold at_, set_heap, set_trials. simpl.
  rewrite list_insert_id by assumption. reflexivity.
Qed.

Lemma attr_at o p tr h t s0 s' v :
  attr o p (at_ tr h t s0) = (s', Ret v) ->
  s' = at_ tr h t s0 /\ resolve h o p = inr v.
Proof.
  unfold attr. intros H. apply lift_Ret in H. exact H.
Qed.

Lemma assign_at o p k x tr h t s0 s' (u : unit) :
  assign o p k x (at_ tr h t s0) = (s', Ret u) ->
  exists a, resolve h o p = inr (VRef a) /\ is_Some (h !! a) /\
            s' = at_ tr (store a k x h) t s0.
Proof.
  unfold assign. intros H.
  apply bind_Ret in H as (s1 & tgt & E & H).
  apply attr_at in E as [-> E].
  unfold setattr in H. destruct tgt as [| | | | | |a]; try discriminate.
  change (heap (at_ tr h t s0)) with h in H.
  destruct (h !! a) as [nd|] eqn:Ha; [|discriminate].
  inversion H. exists a. split; [assumption|]. split; [eauto|reflexivity].
Qed.

Lemma copy_Ret o s s' v :
  copy o s = (s', Ret v) ->
  exists c root, o = VRef c /\ heap s !! c = Some root /\
    v = VRef (c + length (heap s)) /\ s' = set_heap (copied (heap s)) s.
Proof.
  unfold copy. destruct o as [| | | | | |c]; try discriminate.
  destruct (heap s !! c) as [root|] eqn:Hc; [|discriminate].
  intros H. inversion H. exists c, root. auto.
Qed.

Lemma trials_at tr h t s0 :
  tr < length (trials s0) -> trials (at_ tr h t s0) !! tr = Some t.
Proof.
  intros Hlt. unfold at_. simpl. apply list_lookup_insert_eq. assumption.
Qed.

Lemma at_set_trial tr h t t' s0 :
  set_trials (<[tr := t']> (trials (at_ tr h t s0))) (at_ tr h t s0) = at_ tr h t' s0.
Proof.
  unfold at_, set_trials, set_heap. simpl.
  rewrite list_insert_insert_eq. reflexivity.
Qed.

Lemma suggest_int_at tr name lo hi h t s0 s' z :
  tr < length (trials s0) -> lookup_param name (t_params t) = None ->
  suggest_int tr name lo hi (at_ tr h t s0) = (s', Ret z) ->
  t_draw_int t name lo hi = inr z /\
  s' = at_ tr h (add_param name (PInt z) t) s0.
Proof.
  intros Hlt Hnew. unfold suggest_int.
  rewrite trials_at, Hnew by assumption.
  destruct (t_draw_int t name lo hi) as [e|w]; [discriminate|].
  rewrite at_set_trial. intros H. inversion H. auto.
Qed.

Lemma suggest_float_at tr name lo hi h t s0 s' v :
  tr < length (trials s0) -> lookup_param name (t_params t) = None ->
  suggest_float tr name lo hi (at_ tr h t s0) = (s', Ret v) ->
  exists f, v = VFloat f /\ t_draw_float t name lo hi = inr f /\
  s' = at_ tr h (add_param name (PFloat f) t) s0.
Proof.
  intros Hlt Hnew. unfold suggest_float.
  rewrite trials_at, Hnew by assumption.
  destruct (t_draw_float t name lo hi) as [e|w]; [discriminate|].
  rewrite at_set_trial. intros H. inversion H. eauto.
Qed.

(** ** One call of [sample_td3_params], step by step *)

Ltac run_attr H E :=
  let E0 := fresh "E0" in
  cbv beta zeta in H;
  apply bind_Ret in H as (? & ? & E0 & H);
  apply attr_at in E0 as [-> E];
  rewrite ?resolve_store_other in E by reflexivity.

Ltac run_assign H a Ea Ha :=
  let E0 := fresh "E0" in
  cbv beta zeta in H;
  apply bind_Ret in H as (? & ? & E0 & H);
  apply assign_at in E0 as (a & Ea & Ha & ->);
  rewrite ?resolve_store_other in Ea by reflexivity;
  rewrite ?store_is_Some in Ha.

Ltac fresh_name Hfresh :=
  cbn [t_params add_param]; rewrite Hfresh; reflexivity.

Ltac run_int H Hlt Hfresh z Ez :=
  let E0 := fresh "E0" in
  cbv beta zeta in H;
  apply bind_Ret in H as (? & z & E0 & H);
  apply suggest_int_at in E0 as [Ez ->]; [| exact Hlt | fresh_name Hfresh];
  cbn [t_draw_int add_param] in Ez.

Ltac run_float H Hlt Hfresh f :=
  let E0 := fresh "E0" in
  cbv beta zeta in H;
  apply bind_Ret in H as (? & ? & E0 & H);
  apply suggest_float_at in E0 as (f & -> & _ & ->);
  [| exact Hlt | fresh_name Hfresh].

Ltac run_lift H E :=
  let E0 := fresh "E0" in
  cbv beta zeta in H;
  apply bind_Ret in H as (? & ? & E0 & H);
  apply lift_Ret in E0 as [-> E].

Ltac same_node E1 E2 :=
  rewrite E1 in E2; injection E2 as <-.

Lemma with_params_fresh t : t_params t = [] -> t = with_params [] t.
Proof. destruct t. simpl. intros ->. reflexivity. Qed.

Lemma add_param_with_params name w ps t :
  add_param name w (with_params ps t) = with_params (ps ++ [(name, w)]) t.
Proof. reflexivity. Qed.

Lemma sample_td3_params_Ret tr cfg s s' params t :
  trials s !! tr = Some t -> t_params t = [] ->
  sample_td3_params tr cfg s = (s', Ret params) ->
  exists c root n d lo1 hi1 lo2 hi2 lo3 hi3 nt q m,
    td3_run tr cfg s s' params t c root n d lo1 hi1 lo2 hi2 lo3 hi3 nt q m.
Proof.
  intros Ht Hfresh H.
  assert (Hlt : tr < length (trials s)) by (eapply lookup_lt_Some; eauto).
  unfold sample_td3_params in H.
  apply bind_Ret in H as (s1 & params0 & E & H).
  apply copy_Ret in E as (c & root & -> & Hc & -> & ->).
  rewrite (at_eta tr s t Ht) in H.
  (* discount factor *)
  run_attr H Elo. run_attr H Ehi. run_float H Hlt Hfresh f1.
  run_assign H aalg Ealg Halg.
  (* n_steps *)
  run_attr H Elo1. run_attr H Ehi1. run_int H Hlt Hfresh e1 Ee1.
  (* buffer_size, batch_size *)
  run_attr H Elob. run_attr H Ehib. run_int H Hlt Hfresh z1 Ez1.
  run_assign H a2 Ea2 Ha2. same_node Ealg Ea2.
  run_attr H Eloc. run_attr H Ehic. run_int H Hlt Hfresh z2 Ez2.
  run_assign H a3 Ea3 Ha3. same_node Ealg Ea3.
  (* tau_target, action_noise *)
  run_attr H Elot. run_attr H Ehit. run_float H Hlt Hfresh f2.
  run_assign H a4 Ea4 Ha4. same_node Ealg Ea4.
  run_attr H Elon. run_attr H Ehin. run_float H Hlt Hfresh f3.
  run_assign H a5 Ea5 Ha5. same_node Ealg Ea5.
  (* hidden sizes *)
  run_attr H Elo2. run_attr H Ehi2. run_int H Hlt Hfresh e2 Ee2.
  run_assign H aarch Earch Harch.
  run_attr H Elo3. run_attr H Ehi3. run_int H Hlt Hfresh e3 Ee3.
  run_assign H a7 Ea7 Ha7. same_node Earch Ea7.
  (* learning rates *)
  run_attr H Elol. run_attr H Ehil. run_float H Hlt Hfresh f4.
  run_assign H aact Eact Hact.
  run_attr H Elom. run_attr H Ehim. run_float H Hlt Hfresh f5.
  run_assign H acrit Ecrit Hcrit.
  (* n_steps and max_epochs *)
  run_assign H a10 Ea10 Ha10. same_node Ealg Ea10.
  run_attr H Ent. run_lift H Equo. run_lift H Emx.
  run_assign H a11 Ea11 Ha11. same_node Ealg Ea11.
  cbv beta zeta in H. unfold ret in H. injection H as <- <-.
  eexists c, root,
    {| a_algorithm := aalg; a_architecture := aarch;
       a_actor_optimizer := aact; a_critic_optimizer := acrit |},
    {| d_discount_factor := f1; d_n_steps := e1; d_buffer_size := z1;
       d_batch_size := z2; d_tau_target := f2; d_action_std := f3;
       d_actor_hidden_size := e2; d_critic_hidden_size := e3;
       d_actor_lr := f4; d_critic_lr := f5 |},
    _, _, _, _, _, _, _, _, _.
  constructor; cbn [a_algorithm a_architecture a_actor_optimizer
    a_critic_optimizer d_n_steps d_actor_hidden_size d_critic_hidden_size];
    try eassumption; try reflexivity.
  - pose proof (resolve_copy_ref _ _ _ _ Ealg) as [? _].
    pose proof (resolve_copy_ref _ _ _ _ Earch) as [? _].
    pose proof (resolve_copy_ref _ _ _ _ Eact) as [? _].
    pose proof (resolve_copy_ref _ _ _ _ Ecrit) as [? _].
    repeat split; assumption.
  - unfold td3_heap, td3_stores.
    cbn [a_algorithm a_architecture a_actor_optimizer a_critic_optimizer
         d_discount_factor d_n_steps d_buffer_size d_batch_size d_tau_target
         d_action_std d_actor_hidden_size d_critic_hidden_size d_actor_lr
         d_critic_lr].
    f_equal.
    rewrite (with_params_fresh t Hfresh), !add_param_with_params. reflexivity.
Qed.

Lemma heap_at tr h t s0 : heap (at_ tr h t s0) = h.
Proof. reflexivity. Qed.

(** Reading, in a heap built by stores, the field that one of them wrote:
    the later stores are peeled off, then the path [p] to the written
    object is resolved in the heap below. *)
Ltac read_store p Hres Hnode :=
  unfold td3_heap, td3_stores;
  rewrite ?resolve_store_other by reflexivity;
  apply (resolve_store_same _ _ _ _ p);
  [ reflexivity
  | rewrite ?resolve_store_other by reflexivity; exact Hres
  | rewrite ?store_is_Some; exact Hnode ].

Ltac sampled Ht Hfresh Hrun :=
  destruct (sample_td3_params_Ret _ _ _ _ _ _ Ht Hfresh Hrun)
    as (c & root & n & d & lo1 & hi1 & lo2 & hi2 & lo3 & hi3 & nt & q & m
        & [Rcfg Rroot Rparams Rfresh Ralg Rarch Ract Rcrit Nalg Narch Nact Ncrit
           Rlo1 Rhi1 Re1 Rlo2 Rhi2 Re2 Rlo3 Rhi3 Re3 Rnt Rq Rm Rstate]).

Lemma py_pow_within (a b e : Z) :
  (a <= e <= b)%Z -> pow2_within a b (py_pow 2 e).
Proof.
  intros He. exists e. split; [assumption|]. split; [reflexivity|].
  intros Ha. unfold py_pow.
  destruct (Z.leb_spec 0 e) as [_|Hneg]; [|lia].
  split; [reflexivity|].
  split; apply Z.pow_le_mono_r; lia.
Qed.

Lemma int_bound_read h o p (a : Z) lo :
  resolve h o p = inr (VInt a) -> resolve (copied h) o p = inr lo -> lo = VInt a.
Proof.
  intros H1 H2. rewrite (resolve_copied_old _ _ _ _ H1) in H2. congruence.
Qed.

(** ** Properties of [sample_td3_params] *)

(** C4. Each of [n_steps], [actor_hidden_size] and [critic_hidden_size] is
    materialized as [2 ** e] for a drawn exponent [e] within the bounds
    [[a, b]] of the base configuration, so for exponent bounds that are not
    negative it is the integer [2^e] and lies in [[2^a, 2^b]]; each hidden-size
    field is the two-element list that repeats its width. *)
Theorem sample_td3_params_powers_of_two tr cfg s s' params t a1 b1 a2 b2 a3 b3 :
  trials s !! tr = Some t -> t_params t = [] ->
  int_draws_in_range t ->
  resolve (heap s) cfg ["algorithm"; "n_steps"; "min"] = inr (VInt a1) ->
  resolve (heap s) cfg ["algorithm"; "n_steps"; "max"] = inr (VInt b1) ->
  resolve (heap s) cfg ["algorithm"; "architecture"; "actor_hidden_size"; "min"]
    = inr (VInt a2) ->
  resolve (heap s) cfg ["algorithm"; "architecture"; "actor_hidden_size"; "max"]
    = inr (VInt b2) ->
  resolve (heap s) cfg ["algorithm"; "architecture"; "critic_hidden_size"; "min"]
    = inr (VInt a3) ->
  resolve (heap s) cfg ["algorithm"; "architecture"; "critic_hidden_size"; "max"]
    = inr (VInt b3) ->
  sample_td3_params tr cfg s = (s', Ret params) ->
  exists n_steps ahs chs,
    pow2_within a1 b1 n_steps /\ pow2_within a2 b2 ahs /\ pow2_within a3 b3 chs /\
    resolve (heap s') params ["algorithm"; "n_steps"] = inr n_steps /\
    resolve (heap s') params ["algorithm"; "architecture"; "actor_hidden_size"]
      = inr (VList [ahs; ahs]) /\
    resolve (heap s') params ["algorithm"; "architecture"; "critic_hidden_size"]
      = inr (VList [chs; chs]).
Proof.
  intros Ht Hfresh Hdraw Ha1 Hb1 Ha2 Hb2 Ha3 Hb3 Hrun.
  sampled Ht Hfresh Hrun.
  pose proof (int_bound_read _ _ _ _ _ Ha1 Rlo1) as ->.
  pose proof (int_bound_read _ _ _ _ _ Hb1 Rhi1) as ->.
  pose proof (int_bound_read _ _ _ _ _ Ha2 Rlo2) as ->.
  pose proof (int_bound_read _ _ _ _ _ Hb2 Rhi2) as ->.
  pose proof (int_bound_read _ _ _ _ _ Ha3 Rlo3) as ->.
  pose proof (int_bound_read _ _ _ _ _ Hb3 Rhi3) as ->.
  exists (py_pow 2 (d_n_steps d)), (py_pow 2 (d_actor_hidden_size d)),
    (py_pow 2 (d_critic_hidden_size d)).
  rewrite Rstate, heap_at.
  split; [apply py_pow_within; eauto|].
  split; [apply py_pow_within; eauto|].
  split; [apply py_pow_within; eauto|].
  split; [|split].
  - read_store ["algorithm"] Ralg Nalg.
  - read_store ["algorithm"; "architecture"] Rarch Narch.
  - read_store ["algorithm"; "architecture"] Rarch Narch.
Qed.

(** C5. With an integer budget [n_timesteps = T] in the base configuration
    and a positive integer step count [n_steps = N] in the sampled one, the
    field [max_epochs] is the quotient [T // N], so that
    [max_epochs * N <= T < (max_epochs + 1) * N]; it is computed from these
    two values and the trial records no parameter of that name. *)
Theorem sample_td3_params_max_epochs tr cfg s s' params t T N :
  trials s !! tr = Some t -> t_params t = [] ->
  resolve (heap s) cfg ["algorithm"; "n_timesteps"] = inr (VInt T) ->
  sample_td3_params tr cfg s = (s', Ret params) ->
  resolve (heap s') params ["algorithm"; "n_steps"] = inr (VInt N) ->
  (0 < N)%Z ->
  exists max_epochs t',
    resolve (heap s') params ["algorithm"; "max_epochs"] = inr (VInt max_epochs) /\
    max_epochs = (T / N)%Z /\
    (max_epochs * N <= T < (max_epochs + 1) * N)%Z /\
    trials s' !! tr = Some t' /\
    lookup_param "max_epochs" (t_params t') = None.
Proof.
  intros Ht Hfresh HT Hrun HN Hpos.
  sampled Ht Hfresh Hrun.
  assert (Hlt : tr < length (trials s)) by (eapply lookup_lt_Some; eauto).
  rewrite Rstate, heap_at in HN |- *.
  assert (Hn : py_pow 2 (d_n_steps d) = VInt N).
  { assert (Hread : resolve (td3_heap n d m (copied (heap s))) params
                      ["algorithm"; "n_steps"] = inr (py_pow 2 (d_n_steps d)))
      by (read_store ["algorithm"] Ralg Nalg).
    congruence. }
  assert (Hnt : nt = VInt T).
  { rewrite Rparams, resolve_copy, <- Rcfg, HT in Rnt. injection Rnt as <-.
    reflexivity. }
  subst nt. rewrite Hn in Rq. unfold floordiv in Rq. simpl in Rq.
  destruct (Z.eqb_spec N 0) as [->|_]; [lia|].
  injection Rq as <-. simpl in Rm. injection Rm as <-.
  exists (T / N)%Z, (with_params (td3_params d) t).
  split; [read_store ["algorithm"] Ralg Nalg|].
  split; [reflexivity|].
  split.
  - pose proof (Z.mul_div_le T N Hpos). pose proof (Z.mul_succ_div_gt T N Hpos).
    lia.
  - split; [apply trials_at; assumption | reflexivity].
Qed.

(** C10. The action-noise draw is recorded in the trial under the name
    [action_std] and written to the field [algorithm.action_noise]: the
    recorded names are the ten below, with [action_std] and without
    [action_noise]. *)
Theorem sample_td3_params_action_std tr cfg s s' params t :
  trials s !! tr = Some t -> t_params t = [] ->
  sample_td3_params tr cfg s = (s', Ret params) ->
  exists t' f,
    trials s' !! tr = Some t' /\
    lookup_param "action_std" (t_params t') = Some (PFloat f) /\
    lookup_param "action_noise" (t_params t') = None /\
    resolve (heap s') params ["algorithm"; "action_noise"] = inr (VFloat f) /\
    map fst (t_params t') =
      ["discount_factor"; "n_steps"; "buffer_size"; "batch_size"; "tau_target";
       "action_std"; "actor_hidden_size"; "critic_hidden_size"; "actor_lr";
       "critic_lr"].
Proof.
  intros Ht Hfresh Hrun.
  sampled Ht Hfresh Hrun.
  assert (Hlt : tr < length (trials s)) by (eapply lookup_lt_Some; eauto).
  exists (with_params (td3_params d) t), (d_action_std d).
  rewrite Rstate, heap_at.
  split; [apply trials_at; assumption|].
  split; [reflexivity|]. split; [reflexivity|].
  split; [|reflexivity].
  read_store ["algorithm"] Ralg Nalg.
Qed.

Lemma assign_Ret o p k x s s' (u : unit) :
  assign o p k x s = (s', Ret u) ->
  exists a, resolve (heap s) o p = inr (VRef a) /\ is_Some (heap s !! a) /\
            s' = set_heap (store a k x (heap s)) s.
Proof.
  unfold assign. intros H.
  apply bind_Ret in H as (s1 & tgt & E0 & H).
  unfold attr in E0. apply lift_Ret in E0 as [-> E0].
  unfold setattr in H. destruct tgt as [| | | | | |a]; try discriminate.
  destruct (heap s !! a) as [nd|] eqn:Ha; [|discriminate].
  inversion H. exists a. split; [assumption|]. split; [eauto|reflexivity].
Qed.

Lemma above_py_pow n e : above n (py_pow 2 e) = true.
Proof. unfold py_pow. destruct (0 <=? e)%Z; reflexivity. Qed.

Lemma above_py_int n q m : py_int q = inr m -> above n m = true.
Proof.
  destruct q as [|b|z|f| | |]; simpl; try discriminate.
  - intros H. injection H as <-. reflexivity.
  - intros H. injection H as <-. reflexivity.
  - destruct (float_trunc f); [discriminate|].
    intros H. injection H as <-. reflexivity.
Qed.

(** The heap that a call leaves holds the objects of the heap it started
    from, unchanged, and its assignments have put no reference to any of
    them into the copy. *)
Lemma td3_heap_extends h n d m :
  length h <= a_algorithm n -> length h <= a_architecture n ->
  length h <= a_actor_optimizer n -> length h <= a_critic_optimizer n ->
  extends h (td3_heap n d m (copied h)).
Proof.
  intros H1 H2 H3 H4. unfold td3_heap, td3_stores.
  repeat (apply extends_store; [|assumption]). apply extends_copied.
Qed.

Lemma td3_heap_closed h n d q m :
  py_int q = inr m -> closed_above (length h) (td3_heap n d m (copied h)).
Proof.
  intros Hm. unfold td3_heap, td3_stores.
  apply closed_above_store; [|eapply above_py_int; eassumption].
  repeat (apply closed_above_store;
          [| first [ reflexivity | apply above_py_pow
                   | cbn [above forallb]; rewrite above_py_pow; reflexivity ]]).
  apply closed_above_copied.
Qed.

Lemma assign_Raise o p k x s s' e :
  assign o p k x s = (s', Raise e) -> s' = s.
Proof.
  unfold assign, bind, attr.
  destruct (resolve (heap s) o p) as [e0|tgt]; cbn [lift raise ret].
  - intros H. inversion H. reflexivity.
  - unfold setattr. destruct tgt as [| | | | | |a];
      try (intros H; inversion H; reflexivity).
    destruct (heap s !! a); intros H; inversion H. reflexivity.
Qed.

(** An assignment through an object of the copy goes to an object of the
    copy. *)
Lemma assign_copy_extends h n o p k x s s' (r : outcome unit) :
  extends h (heap s) -> closed_above n (heap s) -> length h <= n ->
  above n o = true ->
  assign o p k x s = (s', r) ->
  extends h (heap s') /\
  (above n x = true -> closed_above n (heap s')).
Proof.
  intros Hext Hcl Hn Ho H. destruct r as [[]|e].
  - apply assign_Ret in H as (a & Ea & Ha & ->). cbn [heap set_heap].
    assert (Hle : n <= a).
    { apply Nat.leb_le. apply (resolve_closed_above _ _ _ _ _ Hcl Ho Ea). }
    split; [apply extends_store; [assumption | lia]|].
    intros Hx. apply closed_above_store; assumption.
  - apply assign_Raise in H. subst s'. auto.
Qed.

Lemma assign_each_extends h n o ws : forall s s' (r : outcome unit),
  extends h (heap s) -> closed_above n (heap s) -> length h <= n ->
  above n o = true ->
  Forall (fun w => above n (snd w) = true) ws ->
  assign_each o ws s = (s', r) ->
  extends h (heap s').
Proof.
  unfold assign_each.
  induction ws as [|w ws IH]; intros s s' r Hext Hcl Hn Ho Hws; simpl.
  - unfold ret. intros H. inversion H; subst. assumption.
  - apply Forall_cons in Hws as [Hw Hws]. unfold bind.
    destruct (assign o (fst (fst w)) (snd (fst w)) (snd w) s) as [s1 [u|e]] eqn:Ea;
      destruct (assign_copy_extends _ _ _ _ _ _ _ _ _ Hext Hcl Hn Ho Ea)
        as [Hext1 Hcl1].
    + apply IH; auto.
    + intros H. inversion H; subst. assumption.
Qed.

(** C6. The configuration that [sample_td3_params] returns is a copy of its
    own: the call leaves every object that the heap held as it was, so that
    every path of the base configuration resolves to what it resolved to;
    and so does every assignment [params.p1...pn.k = x] to a field of the
    returned configuration, at any depth and for any value, and every
    sequence of such assignments of values that hold no reference to an
    object of the heap in which the call was made. *)
Theorem sample_td3_params_independent tr cfg s s' params t :
  trials s !! tr = Some t -> t_params t = [] ->
  sample_td3_params tr cfg s = (s', Ret params) ->
  extends (heap s) (heap s') /\
  (forall q v, resolve (heap s) cfg q = inr v -> resolve (heap s') cfg q = inr v) /\
  (forall p k x s'',
     assign params p k x s' = (s'', Ret tt) ->
     extends (heap s) (heap s'') /\
     forall q v, resolve (heap s) cfg q = inr v -> resolve (heap s'') cfg q = inr v) /\
  (forall ws s'' (r : outcome unit),
     Forall (fun w => above (length (heap s)) (snd w) = true) ws ->
     assign_each params ws s' = (s'', r) ->
     extends (heap s) (heap s'') /\
     forall q v, resolve (heap s) cfg q = inr v -> resolve (heap s'') cfg q = inr v).
Proof.
  intros Ht Hfresh Hrun.
  sampled Ht Hfresh Hrun.
  destruct Rfresh as (F1 & F2 & F3 & F4).
  assert (Hext : extends (heap s) (heap s')).
  { rewrite Rstate, heap_at. apply td3_heap_extends; assumption. }
  assert (Hcl : closed_above (length (heap s)) (heap s')).
  { rewrite Rstate, heap_at. eapply td3_heap_closed. eassumption. }
  assert (Hparams : above (length (heap s)) params = true).
  { rewrite Rparams. apply Nat.leb_le. lia. }
  split; [assumption|].
  split; [intros q0 v; apply resolve_extends; assumption|].
  split.
  - intros p k x s'' Hset.
    destruct (assign_copy_extends _ _ _ _ _ _ _ _ _ Hext Hcl (Nat.le_refl _)
                Hparams Hset) as [Hext' _].
    split; [assumption|].
    intros q0 v. apply resolve_extends. assumption.
  - intros ws s'' r Hws Hset.
    pose proof (assign_each_extends _ _ _ _ _ _ _ Hext Hcl (Nat.le_refl _)
                  Hparams Hws Hset) as Hext'.
    split; [assumption|].
    intros q0 v. apply resolve_extends. assumption.
Qed.

(** ** One run of [objective] *)

Lemma bind_run {A B} (m : M A) (f : A -> M B) s s1 (a : A) :
  m s = (s1, Ret a) -> bind m f s = f a s1.
Proof. unfold bind. intros ->. reflexivity. Qed.

Lemma attr_run o p s v :
  resolve (heap s) o p = inr v -> attr o p s = (s, Ret v).
Proof. unfold attr. intros ->. reflexivity. Qed.

Lemma assign_run o p k x s a :
  resolve (heap s) o p = inr (VRef a) -> is_Some (heap s !! a) ->
  assign o p k x s = (set_heap (store a k x (heap s)) s, Ret tt).
Proof.
  intros Hres [nd Ha]. unfold assign.
  rewrite (bind_run _ _ _ _ _ (attr_run _ _ _ _ Hres)).
  unfold setattr. rewrite Ha. reflexivity.
Qed.

Lemma lookup_attr_node h a k v : lookup_attr h (VRef a) k = inr v -> is_Some (h !! a).
Proof.
  simpl. destruct (h !! a); [eauto | discriminate].
Qed.

(** The loop of [train] runs over [range(1)]: the bound is read back from
    the field that the line before has set to 1. *)
Lemma train_enters tr run config s1 a mx :
  resolve (heap s1) config ["algorithm"] = inr (VRef a) ->
  lookup_attr (heap s1) (VRef a) "max_epoch" = inr mx ->
  train tr run config VNone s1 =
  (for_each [0%Z] (loop_body tr run config VNone) ;;;
   assign config ["algorithm"] "max_epoch" mx ;;;
   ret false) (entered a s1).
Proof.
  intros Halg Hmx.
  pose proof (lookup_attr_node _ _ _ _ Hmx) as Hnode.
  unfold train.
  assert (Hread : resolve (heap s1) config (["algorithm"] ++ ["max_epoch"]) = inr mx).
  { rewrite resolve_app, Halg, resolve_single. exact Hmx. }
  rewrite (bind_run _ _ _ _ _ (attr_run _ _ _ _ Hread)).
  rewrite (bind_run _ _ _ _ _ (assign_run _ _ _ _ _ _ Halg Hnode)).
  fold (entered a s1).
  assert (Hone : resolve (heap (entered a s1)) config (["algorithm"] ++ ["max_epoch"])
                 = inr (VInt 1)).
  { apply resolve_store_same; [reflexivity | assumption | assumption]. }
  rewrite (bind_run _ _ _ _ _ (attr_run _ _ _ _ Hone)).
  reflexivity.
Qed.

(** One turn of the loop: the entry point is called on [config] and
    [None]; if it returns, the test [agent.is_eval] is made on [None]. *)
Lemma loop_body_run tr run config epoch s c h' r :
  globals s run = Some c ->
  c [config; VNone] (heap s) = (h', r) ->
  loop_body tr run config VNone epoch s =
  (set_heap h' (log (ECall run [config; VNone]) s),
   match r with
   | Ret _ => Raise (Exn AttributeError "is_eval")
   | Raise e => Raise e
   end).
Proof.
  intros Hg Hc. unfold loop_body, bind, eval_call. rewrite Hg.
  change (heap (log (ECall run [config; VNone]) s)) with (heap s).
  rewrite Hc. destruct r; reflexivity.
Qed.

Lemma train_run tr run config s1 a mx c h' r :
  resolve (heap s1) config ["algorithm"] = inr (VRef a) ->
  lookup_attr (heap s1) (VRef a) "max_epoch" = inr mx ->
  globals s1 run = Some c ->
  c [config; VNone] (store a "max_epoch" (VInt 1) (heap s1)) = (h', r) ->
  train tr run config VNone s1 =
  (stepped run config a h' s1,
   match r with
   | Ret _ => Raise (Exn AttributeError "is_eval")
   | Raise e => Raise e
   end).
Proof.
  intros Halg Hmx Hg Hc.
  rewrite (train_enters _ _ _ _ _ _ Halg Hmx).
  assert (Hbody := loop_body_run tr run config 0%Z (entered a s1) c h' r Hg Hc).
  unfold bind at 1. cbn [for_each]. unfold bind at 1. rewrite Hbody.
  destruct r; reflexivity.
Qed.

Lemma objective_run tr cfg run s s1 config a mx c h' r :
  sample_td3_params tr cfg s = (s1, Ret config) ->
  resolve (heap s1) config ["algorithm"] = inr (VRef a) ->
  lookup_attr (heap s1) (VRef a) "max_epoch" = inr mx ->
  globals s1 run = Some c ->
  c [config; VNone] (store a "max_epoch" (VInt 1) (heap s1)) = (h', r) ->
  objective tr cfg run s =
  match r with
  | Ret _ => (stepped run config a h' s1, Raise (Exn AttributeError "is_eval"))
  | Raise e =>
      if is_AssertionError e
      then (log (EPrint [VStr (exn_msg e)]) (stepped run config a h' s1),
            Ret (VFloat nan))
      else (stepped run config a h' s1, Raise e)
  end.
Proof.
  intros Hs Halg Hmx Hg Hc. unfold objective.
  rewrite (bind_run _ _ _ _ _ Hs). cbv zeta.
  unfold bind at 1. unfold try_except.
  rewrite (train_run _ _ _ _ _ _ _ _ _ Halg Hmx Hg Hc).
  destruct r as [v|e]; [reflexivity|].
  destruct (is_AssertionError e); reflexivity.
Qed.

(** Whatever the trial, the configuration and the entry point, the only
    value that [objective] can return is NaN: on the path without failure
    it reads [last_mean_reward] from [None]. *)
Lemma objective_returns_only_nan tr cfg run s sf v :
  objective tr cfg run s = (sf, Ret v) -> v = VFloat nan.
Proof.
  intros H. unfold objective in H.
  apply bind_Ret in H as (s1 & config & _ & H). cbv zeta in H.
  apply bind_Ret in H as (s2 & failed & _ & H).
  destruct failed; [|discriminate].
  unfold ret in H. injection H as _ <-. reflexivity.
Qed.

Lemma calls_app tr1 tr2 : calls (tr1 ++ tr2) = calls tr1 + calls tr2.
Proof. unfold calls. rewrite List.filter_app, length_app. reflexivity. Qed.

(** ** Properties of [objective] *)

(** C1, as the code has it. When the training entry point returns, whatever
    agent it returns, [objective] does not return that agent's reward: the
    value of the call is dropped, the local [agent] is still [None], and the
    test [agent.is_eval] raises [AttributeError]. *)
Theorem objective_drops_agent tr cfg run s s1 config a mx c h' v :
  sample_td3_params tr cfg s = (s1, Ret config) ->
  resolve (heap s1) config ["algorithm"] = inr (VRef a) ->
  lookup_attr (heap s1) (VRef a) "max_epoch" = inr mx ->
  globals s1 run = Some c ->
  c [config; VNone] (store a "max_epoch" (VInt 1) (heap s1)) = (h', Ret v) ->
  objective tr cfg run s =
  (stepped run config a h' s1, Raise (Exn AttributeError "is_eval")).
Proof.
  intros Hs Halg Hmx Hg Hc.
  rewrite (objective_run _ _ _ _ _ _ _ _ _ _ _ Hs Halg Hmx Hg Hc). reflexivity.
Qed.

(** C2. When the training step raises an [AssertionError], [objective]
    returns NaN; when it raises an exception of another class, [objective]
    raises that exception. *)
Theorem objective_value_failure tr cfg run s s1 config a mx c h' e :
  sample_td3_params tr cfg s = (s1, Ret config) ->
  resolve (heap s1) config ["algorithm"] = inr (VRef a) ->
  lookup_attr (heap s1) (VRef a) "max_epoch" = inr mx ->
  globals s1 run = Some c ->
  c [config; VNone] (store a "max_epoch" (VInt 1) (heap s1)) = (h', Raise e) ->
  (is_AssertionError e = true ->
   objective tr cfg run s =
   (log (EPrint [VStr (exn_msg e)]) (stepped run config a h' s1), Ret (VFloat nan)))
  /\
  (is_AssertionError e = false ->
   objective tr cfg run s = (stepped run config a h' s1, Raise e)).
Proof.
  intros Hs Halg Hmx Hg Hc.
  rewrite (objective_run _ _ _ _ _ _ _ _ _ _ _ Hs Halg Hmx Hg Hc).
  split; intros ->; reflexivity.
Qed.

(** C8. Once the sampled configuration is there and its field [max_epoch]
    can be read, [objective] is the program whose loop runs over the single
    epoch 0, started in the state where [max_epoch] has been set to 1; with
    an entry point bound to the name [run], that entry point is called
    exactly once, whatever the configuration holds in [max_epochs] or held in
    [max_epoch], and whatever the call does. *)
Theorem objective_one_step tr cfg run s s1 config a mx :
  sample_td3_params tr cfg s = (s1, Ret config) ->
  resolve (heap s1) config ["algorithm"] = inr (VRef a) ->
  lookup_attr (heap s1) (VRef a) "max_epoch" = inr mx ->
  objective tr cfg run s =
  (failed <-
     try_except
       (for_each [0%Z] (loop_body tr run config VNone) ;;;
        assign config ["algorithm"] "max_epoch" mx ;;;
        ret false)
       is_AssertionError
       (fun e => print [VStr (exn_msg e)] ;;; ret true) ;;
   if failed : bool then ret (VFloat nan) else getattr VNone "last_mean_reward")
    (entered a s1)
  /\
  forall c, globals s1 run = Some c ->
    exists sf r,
      objective tr cfg run s = (sf, r) /\
      calls (trace sf) = S (calls (trace s1)) /\
      List.filter is_call (trace sf)
      = (List.filter is_call (trace s1) ++ [ECall run [config; VNone]])%list.
Proof.
  intros Hs Halg Hmx. split.
  - unfold objective. rewrite (bind_run _ _ _ _ _ Hs). cbv zeta.
    unfold bind at 1 3. unfold try_except.
    rewrite (train_enters _ _ _ _ _ _ Halg Hmx). reflexivity.
  - intros c Hg.
    destruct (c [config; VNone] (store a "max_epoch" (VInt 1) (heap s1)))
      as [h' r] eqn:Hc.
    rewrite (objective_run _ _ _ _ _ _ _ _ _ _ _ Hs Halg Hmx Hg Hc).
    destruct r as [v|e]; [|destruct (is_AssertionError e)];
      eexists _, _; (split; [reflexivity|]); cbn [trace stepped entered log set_heap];
      rewrite ?calls_app, ?List.filter_app; cbn; rewrite ?app_nil_r;
      (split; [lia | reflexivity]).
Qed.

(** C9. On the error path the field [max_epoch] is not restored: if the
    training step raises an [AssertionError] and has left the field as it
    found it, [objective] returns NaN in a state whose heap is the one the
    step left, with [config.algorithm.max_epoch] equal to 1 whatever it was
    before the loop. *)
Theorem objective_error_path_max_epoch tr cfg run s s1 config a mx c h' e :
  sample_td3_params tr cfg s = (s1, Ret config) ->
  resolve (heap s1) config ["algorithm"] = inr (VRef a) ->
  lookup_attr (heap s1) (VRef a) "max_epoch" = inr mx ->
  globals s1 run = Some c ->
  c [config; VNone] (store a "max_epoch" (VInt 1) (heap s1)) = (h', Raise e) ->
  is_AssertionError e = true ->
  resolve h' config ["algorithm"; "max_epoch"]
  = resolve (store a "max_epoch" (VInt 1) (heap s1)) config ["algorithm"; "max_epoch"] ->
  exists sf,
    objective tr cfg run s = (sf, Ret (VFloat nan)) /\
    heap sf = h' /\
    resolve (heap sf) config ["algorithm"; "max_epoch"] = inr (VInt 1).
Proof.
  intros Hs Halg Hmx Hg Hc He Hframe.
  rewrite (objective_run _ _ _ _ _ _ _ _ _ _ _ Hs Halg Hmx Hg Hc), He.
  eexists. split; [reflexivity|]. split; [reflexivity|].
  cbn [heap log stepped set_heap]. rewrite Hframe.
  apply (resolve_store_same _ _ _ _ ["algorithm"]);
    [reflexivity | assumption | eapply lookup_attr_node; eauto].
Qed.

(** ** The study built and run by [tune] *)

Lemma tune_create_study_Ret cfg s s' (u : unit) N W :
  resolve (heap s) cfg ["study"; "n_startup_trials"] = inr (VInt N) ->
  resolve (heap s) cfg ["study"; "n_warmup_steps"] = inr (VInt W) ->
  tune_create_study cfg s = (s', Ret u) ->
  s' = set_pruner {| n_startup_trials := N; n_warmup_steps := W / 3 |}
         (set_trials [] s).
Proof.
  intros HN HW. unfold tune_create_study.
  rewrite !(bind_run _ _ _ _ _ (attr_run _ _ _ _ HN)).
  rewrite (bind_run _ _ _ _ _ (attr_run _ _ _ _ HW)).
  unfold floordiv. cbn [as_int]. change (3 =? 0)%Z with false. cbn [lift].
  unfold bind at 1. cbn [ret]. unfold new_MedianPruner. cbn [as_int].
  destruct (N <? 0)%Z; [discriminate|].
  destruct (W / 3 <? 0)%Z; [discriminate|].
  unfold bind, ret, create_study. intros H. inversion H. reflexivity.
Qed.

(** C3, as the code has it. The pruner that [tune] builds has a third of the
    configured warm-up-step count as its own (rounded down): it never
    prunes a trial whose last reported step is below
    [cfg.study.n_warmup_steps // 3], and never prunes while the study has
    fewer completed trials than [cfg.study.n_startup_trials]. *)
Theorem tune_pruner_warmup cfg s s' N W :
  resolve (heap s) cfg ["study"; "n_startup_trials"] = inr (VInt N) ->
  resolve (heap s) cfg ["study"; "n_warmup_steps"] = inr (VInt W) ->
  tune_create_study cfg s = (s', Ret tt) ->
  pruner s' = {| n_startup_trials := N; n_warmup_steps := W / 3 |} /\
  forall ts t,
    (forall step, last_step t = Some step -> (step < W / 3)%Z ->
                  prune (pruner s') ts t = false) /\
    ((Z.of_nat (length (completed ts)) < N)%Z -> prune (pruner s') ts t = false).
Proof.
  intros HN HW Hrun.
  rewrite (tune_create_study_Ret _ _ _ _ _ _ HN HW Hrun).
  split; [reflexivity|]. intros ts t. cbn [pruner set_pruner].
  unfold prune. cbn [n_startup_trials n_warmup_steps]. split.
  - intros step Hlast Hlt. rewrite Hlast.
    destruct (Z.of_nat (length (completed ts)) =? 0)%Z; [reflexivity|].
    destruct (Z.of_nat (length (completed ts)) <? N)%Z; [reflexivity|].
    destruct (Z.ltb_spec step (W / 3)); [reflexivity | lia].
  - intros Hlt.
    destruct (Z.of_nat (length (completed ts)) =? 0)%Z; [reflexivity|].
    destruct (Z.ltb_spec (Z.of_nat (length (completed ts))) N); [reflexivity | lia].
Qed.

Lemma tell_length trial st w s :
  length (trials (tell trial st w s)) = length (trials s).
Proof.
  unfold tell. destruct (trials s !! trial); [|reflexivity].
  cbn [trials set_trials]. apply length_insert.
Qed.

Lemma tell_other trial st w s i :
  i <> trial -> trials (tell trial st w s) !! i = trials s !! i.
Proof.
  intros Hne. unfold tell. destruct (trials s !! trial); [|reflexivity].
  cbn [trials set_trials]. apply list_lookup_insert_ne. congruence.
Qed.

(** One turn of the search loop adds a record and leaves the records of the
    earlier trials as they are. *)
Lemma run_trial_keeps func s s' r :
  local_objective func -> run_trial func s = (s', r) ->
  length (trials s') = S (length (trials s)) /\
  forall i, i < length (trials s) -> trials s' !! i = trials s !! i.
Proof.
  intros Hloc. unfold run_trial.
  destruct (func (length (trials s)) (set_trials (trials s ++ [new_trial s]) s))
    as [s1 o] eqn:E.
  destruct (Hloc _ _ _ _ E) as [Hlen Hother].
  cbn [trials set_trials] in Hlen, Hother. rewrite length_app in Hlen.
  cbn [length] in Hlen.
  assert (Hgen : forall st w,
    length (trials (tell (length (trials s)) st w s1)) = S (length (trials s)) /\
    forall i, i < length (trials s) ->
      trials (tell (length (trials s)) st w s1) !! i = trials s !! i).
  { intros st w. rewrite tell_length. split; [lia|].
    intros i Hi. rewrite tell_other, Hother by lia.
    apply lookup_app_l. assumption. }
  destruct o as [v|e].
  - destruct (as_float v) as [f|]; [destruct (is_nan f)|];
      intros H; inversion H; subst; apply Hgen.
  - destruct (is_TrialPruned e); intros H; inversion H; subst; apply Hgen.
Qed.

Lemma optimize_loop_keeps func n : forall s s' r,
  local_objective func -> optimize_loop func n s = (s', r) ->
  length (trials s) <= length (trials s') /\
  forall i, i < length (trials s) -> trials s' !! i = trials s !! i.
Proof.
  induction n as [|n IH]; intros s s' r Hloc; simpl.
  - unfold ret. intros H. inversion H. auto.
  - unfold bind. destruct (run_trial func s) as [s1 [u|e]] eqn:E;
      destruct (run_trial_keeps _ _ _ _ Hloc E) as [Hlen Hold].
    + intros H. destruct (IH _ _ _ Hloc H) as [Hlen' Hold'].
      split; [lia|]. intros i Hi. rewrite Hold' by lia. apply Hold. assumption.
    + intros H. inversion H; subst. split; [lia | assumption].
Qed.

Lemma optimize_loop_app func (n m : nat) : forall s sk (u : unit),
  optimize_loop func n s = (sk, Ret u) ->
  optimize_loop func (n + m) s = optimize_loop func m sk.
Proof.
  induction n as [|n IH]; intros s sk u; simpl.
  - unfold ret. intros H. inversion H. reflexivity.
  - unfold bind. destruct (run_trial func s) as [s1 [w|e]]; [|discriminate].
    apply IH.
Qed.

Lemma best_among_acc ts : forall b, exists b', best_among ts (Some b) = Some b'.
Proof.
  induction ts as [|t ts IH]; intros b; simpl; [eauto|].
  destruct (t_status t), (t_value t), b; try apply IH.
  destruct (float_gt _ _); apply IH.
Qed.

Lemma best_among_complete ts : forall i t w acc,
  ts !! i = Some t -> t_status t = Complete -> t_value t = Some w ->
  exists b, best_among ts acc = Some b.
Proof.
  induction ts as [|t0 ts IH]; intros i t w acc Hi Hst Hv; [discriminate|].
  destruct i as [|i]; simpl in Hi.
  - injection Hi as ->. simpl. rewrite Hst, Hv.
    destruct acc as [[tb b]|]; [destruct (float_gt w b)|]; apply best_among_acc.
  - simpl. destruct (t_status t0), (t_value t0), acc as [[tb b]|];
      try (eapply IH; eassumption).
    destruct (float_gt _ _); eapply IH; eassumption.
Qed.

Lemma logs_logs es1 es2 s : logs es2 (logs es1 s) = logs (es1 ++ es2) s.
Proof. unfold logs. simpl. rewrite app_assoc. reflexivity. Qed.

Lemma for_each_print {A} (g : A -> list value) (l : list A) : forall es s,
  for_each l (fun y => print (g y)) (logs es s)
  = (logs (es ++ map (fun y => EPrint (g y)) l) s, Ret tt).
Proof.
  induction l as [|y l IH]; intros es s; simpl.
  - rewrite app_nil_r. reflexivity.
  - unfold bind, print. change (log (EPrint (g y)) (logs es s))
      with (logs [EPrint (g y)] (logs es s)).
    rewrite logs_logs, IH, <- app_assoc. reflexivity.
Qed.

Lemma logs_nil s : logs [] s = s.
Proof. destruct s. unfold logs. simpl. rewrite app_nil_r. reflexivity. Qed.

Lemma print_logs args es s :
  print args (logs es s) = (logs (es ++ [EPrint args]) s, Ret tt).
Proof.
  unfold print.
  change (log (EPrint args) (logs es s)) with (logs [EPrint args] (logs es s)).
  rewrite logs_logs. reflexivity.
Qed.

Lemma tune_report_logs s b es :
  best_among (trials s) None = Some b ->
  tune_report (logs es s) = (logs (es ++ report_events (trials s) b) s, Ret tt).
Proof.
  intros Hb. unfold tune_report, report_events.
  assert (Hts : forall es', study_trials (logs es' s) = (logs es' s, Ret (trials s)))
    by reflexivity.
  assert (Hbest : forall es', best_trial (logs es' s) = (logs es' s, Ret b)).
  { intros es'. unfold best_trial. cbn [trials logs]. rewrite Hb. reflexivity. }
  rewrite (bind_run _ _ _ _ _ (Hts _)).
  rewrite (bind_run _ _ _ _ _ (print_logs _ _ s)).
  rewrite (bind_run _ _ _ _ _ (print_logs _ _ s)).
  rewrite (bind_run _ _ _ _ _ (Hbest _)).
  rewrite (bind_run _ _ _ _ _ (print_logs _ _ s)).
  rewrite (bind_run _ _ _ _ _ (print_logs _ _ s)).
  rewrite (bind_run _ _ _ _ _
             (for_each_print
                (fun kv => [VStr "    "; VStr (fst kv); VStr ": ";
                            param_to_value (snd kv)]) _ _ s)).
  rewrite (bind_run _ _ _ _ _ (print_logs _ _ s)).
  rewrite (bind_run _ _ _ _ _ (Hts _)).
  unfold to_csv.
  change (log ?e (logs ?es0 s)) with (logs [e] (logs es0 s)).
  rewrite logs_logs. rewrite <- !app_assoc. reflexivity.
Qed.

Lemma tune_report_run s b :
  best_among (trials s) None = Some b ->
  tune_report s = (logs (report_events (trials s) b) s, Ret tt).
Proof.
  intros Hb. rewrite <- (logs_nil s) at 1.
  apply (tune_report_logs s b [] Hb).
Qed.

(** C7. If, after [done] trials have run to their end, a
    [KeyboardInterrupt] leaves the search loop, [tune] does not raise it
    again: it goes on to the report, on a study that still holds every
    record the study held when those trials were done. With a completed trial among them, the
    best-trial summary and the trial table are emitted, and what is left of
    [tune] is the plotting of that study. *)
Theorem tune_reports_after_interrupt
    (obj : nat -> value -> string -> M value) cfg run s s0 sk s1
    (n : Z) nj tmo (done rest : nat) e (i : nat) t w :
  local_objective (fun trial => obj trial cfg run) ->
  tune_create_study cfg s = (s0, Ret tt) ->
  resolve (heap s0) cfg ["study"; "n_trials"] = inr (VInt n) ->
  resolve (heap s0) cfg ["study"; "n_jobs"] = inr nj ->
  resolve (heap s0) cfg ["study"; "timeout"] = inr tmo ->
  Z.to_nat n = done + rest ->
  optimize_loop (fun trial => obj trial cfg run) done s0 = (sk, Ret tt) ->
  optimize_loop (fun trial => obj trial cfg run) rest sk = (s1, Raise e) ->
  is_KeyboardInterrupt e = true ->
  trials sk !! i = Some t -> t_status t = Complete -> t_value t = Some w ->
  exists b,
    best_among (trials s1) None = Some b /\
    tune_search obj cfg run s0 = (s1, Ret tt) /\
    (forall j tj, trials sk !! j = Some tj -> trials s1 !! j = Some tj) /\
    tune obj cfg run s = tune_plots (logs (report_events (trials s1) b) s1).
Proof.
  intros Hloc Hcreate Hn Hj Ht Hsplit Hk Hm He Hi Hst Hv.
  destruct (optimize_loop_keeps _ _ _ _ _ Hloc Hm) as [_ Hold].
  assert (Hkept : forall j tj, trials sk !! j = Some tj -> trials s1 !! j = Some tj).
  { intros j tj Hj'. rewrite Hold; [assumption|]. eapply lookup_lt_Some; eauto. }
  destruct (best_among_complete (trials s1) i t w None (Hkept _ _ Hi) Hst Hv)
    as [b Hb].
  assert (Hsearch : tune_search obj cfg run s0 = (s1, Ret tt)).
  { unfold tune_search, try_except.
    rewrite (bind_run _ _ _ _ _ (attr_run _ _ _ _ Hn)).
    rewrite (bind_run _ _ _ _ _ (attr_run _ _ _ _ Hj)).
    rewrite (bind_run _ _ _ _ _ (attr_run _ _ _ _ Ht)).
    unfold optimize. cbn [as_int]. rewrite Hsplit.
    rewrite (optimize_loop_app _ _ _ _ _ _ Hk), Hm, He. reflexivity. }
  exists b. split; [assumption|]. split; [assumption|]. split; [assumption|].
  unfold tune.
  rewrite (bind_run _ _ _ _ _ Hcreate).
  rewrite (bind_run _ _ _ _ _ Hsearch).
  rewrite (bind_run _ _ _ _ _ (tune_report_run _ _ Hb)).
  reflexivity.
Qed.

(** * Further properties of the module *)

(** ** What a run may touch *)

Lemma frame_refl quiet tr s : frame quiet tr s s.
Proof.
  repeat split; eauto 10.
Qed.

Lemma frame_trans quiet tr s1 s2 s3 :
  frame quiet tr s1 s2 -> frame quiet tr s2 s3 -> frame quiet tr s1 s3.
Proof.
  intros (L1 & O1 & T1 & P1 & G1 & Q1) (L2 & O2 & T2 & P2 & G2 & Q2).
  repeat split; try congruence.
  - intros i Hi. rewrite O2, O1 by assumption. reflexivity.
  - intros t Ht. destruct (T1 _ Ht) as (t1 & Ht1 & R1 & S1 & V1).
    destruct (T2 _ Ht1) as (t2 & Ht2 & R2 & S2 & V2).
    exists t2. repeat split; congruence.
  - intros Hq. rewrite Q2, Q1 by assumption. reflexivity.
Qed.

Lemma frame_weaken tr s s' : frame true tr s s' -> frame false tr s s'.
Proof.
  intros (L & O & T & P & G & Q). repeat split; try assumption. discriminate.
Qed.

(** A step that leaves the trials, the pruner, the globals and the trace. *)
Lemma frame_heap quiet tr s s' :
  trials s' = trials s -> pruner s' = pruner s -> globals s' = globals s ->
  (quiet = true -> trace s' = trace s) -> frame quiet tr s s'.
Proof.
  intros Ht Hp Hg Hq. unfold frame. rewrite Ht.
  repeat split; try assumption. intros t Hl. exists t. auto.
Qed.

Lemma keeps_ret {A} quiet tr (a : A) : keeps (frame quiet tr) (ret a).
Proof. intros s s' r H. inversion H. apply frame_refl. Qed.

Lemma keeps_raise {A} quiet tr e : keeps (frame quiet tr) (@raise _ A e).
Proof. intros s s' r H. inversion H. apply frame_refl. Qed.

Lemma keeps_lift {A} quiet tr (x : exn + A) : keeps (frame quiet tr) (lift x).
Proof. destruct x; [apply keeps_raise | apply keeps_ret]. Qed.

Lemma keeps_bind {A B} quiet tr (m : M A) (f : A -> M B) :
  keeps (frame quiet tr) m -> (forall a, keeps (frame quiet tr) (f a)) ->
  keeps (frame quiet tr) (bind m f).
Proof.
  intros Hm Hf s s' r. unfold bind.
  destruct (m s) as [s1 [a|e]] eqn:E; intros H.
  - eapply frame_trans; [eapply Hm; eauto | eapply Hf; eauto].
  - inversion H; subst. eapply Hm; eauto.
Qed.

Lemma keeps_attr quiet tr o p : keeps (frame quiet tr) (attr o p).
Proof. unfold attr. intros s. apply keeps_lift. Qed.

Lemma keeps_getattr quiet tr o k : keeps (frame quiet tr) (getattr o k).
Proof. unfold getattr. intros s. apply keeps_lift. Qed.

Lemma keeps_setattr quiet tr o k x : keeps (frame quiet tr) (setattr o k x).
Proof.
  intros s s' r. unfold setattr.
  destruct o as [| | | | | |a]; try (intros H; inversion H; apply frame_refl).
  destruct (heap s !! a); intros H; inversion H; subst;
    [apply frame_heap; reflexivity | apply frame_refl].
Qed.

Lemma keeps_assign quiet tr o p k x : keeps (frame quiet tr) (assign o p k x).
Proof.
  unfold assign. apply keeps_bind; [apply keeps_attr | intros; apply keeps_setattr].
Qed.

Lemma keeps_copy quiet tr o : keeps (frame quiet tr) (copy o).
Proof.
  intros s s' r. unfold copy.
  destruct o as [| | | | | |a]; try (intros H; inversion H; apply frame_refl).
  destruct (heap s !! a); intros H; inversion H; subst;
    [apply frame_heap; reflexivity | apply frame_refl].
Qed.

Lemma frame_add_param quiet tr name w s t :
  trials s !! tr = Some t ->
  frame quiet tr s (set_trials (<[tr := add_param name w t]> (trials s)) s).
Proof.
  intros Ht.
  assert (Hlt : tr < length (trials s)) by (eapply lookup_lt_Some; eauto).
  unfold frame. cbn [trials set_trials pruner globals trace].
  rewrite length_insert. repeat split.
  - intros i Hi. apply list_lookup_insert_ne. congruence.
  - intros t0 Ht0. rewrite Ht in Ht0. injection Ht0 as <-.
    exists (add_param name w t).
    rewrite list_lookup_insert_eq by assumption. auto.
Qed.

Lemma keeps_suggest_int quiet tr name lo hi :
  keeps (frame quiet tr) (suggest_int tr name lo hi).
Proof.
  intros s s' r. unfold suggest_int, no_trial.
  destruct (trials s !! tr) as [t|] eqn:Ht;
    [|intros H; inversion H; apply frame_refl].
  destruct (lookup_param name (t_params t)) as [[z|f]|];
    try (intros H; inversion H; apply frame_refl).
  destruct (t_draw_int t name lo hi); intros H; inversion H; subst;
    [apply frame_refl | apply frame_add_param; assumption].
Qed.

Lemma keeps_suggest_float quiet tr name lo hi :
  keeps (frame quiet tr) (suggest_float tr name lo hi).
Proof.
  intros s s' r. unfold suggest_float, no_trial.
  destruct (trials s !! tr) as [t|] eqn:Ht;
    [|intros H; inversion H; apply frame_refl].
  destruct (lookup_param name (t_params t)) as [[z|f]|];
    try (intros H; inversion H; apply frame_refl).
  destruct (t_draw_float t name lo hi); intros H; inversion H; subst;
    [apply frame_refl | apply frame_add_param; assumption].
Qed.

Ltac keeps_step :=
  first
    [ apply keeps_assign | apply keeps_setattr
    | apply keeps_bind; [|intros ?]
    | apply keeps_attr | apply keeps_copy
    | apply keeps_suggest_int | apply keeps_suggest_float
    | apply keeps_lift | apply keeps_ret | apply keeps_raise
    | apply keeps_getattr ].

Lemma keeps_sample_td3_params quiet tr cfg :
  keeps (frame quiet tr) (sample_td3_params tr cfg).
Proof.
  unfold sample_td3_params. repeat (cbv beta zeta; keeps_step).
Qed.

Lemma keeps_print tr args : keeps (frame false tr) (print args).
Proof.
  intros s s' r H. inversion H; subst.
  apply frame_heap; try reflexivity. discriminate.
Qed.

Lemma entry_frame_trans run tr s1 s2 s3 :
  entry_frame run tr s1 s2 -> entry_frame run tr s2 s3 -> entry_frame run tr s1 s3.
Proof.
  intros H1 H2 Hg. pose proof (H1 Hg) as H12.
  eapply frame_trans; [exact H12|]. apply H2.
  destruct H12 as (_ & _ & _ & _ & G & _). rewrite G. assumption.
Qed.

Lemma keeps_entry {A} quiet run tr (m : M A) :
  keeps (frame quiet tr) m -> keeps (entry_frame run tr) m.
Proof.
  intros Hm s s' r H _. apply Hm in H.
  destruct quiet; [apply frame_weaken|]; assumption.
Qed.

Lemma keeps_entry_bind {A B} run tr (m : M A) (f : A -> M B) :
  keeps (entry_frame run tr) m -> (forall a, keeps (entry_frame run tr) (f a)) ->
  keeps (entry_frame run tr) (bind m f).
Proof.
  intros Hm Hf s s' r. unfold bind.
  destruct (m s) as [s1 [a|e]] eqn:Em; intros H.
  - eapply entry_frame_trans; [eapply Hm; eauto | eapply Hf; eauto].
  - inversion H; subst. eapply Hm; eauto.
Qed.

Lemma keeps_entry_try_except {A} run tr (m : M A) C (handler : exn -> M A) :
  keeps (entry_frame run tr) m ->
  (forall e, keeps (entry_frame run tr) (handler e)) ->
  keeps (entry_frame run tr) (try_except m C handler).
Proof.
  intros Hm Hh s s' r. unfold try_except.
  destruct (m s) as [s1 [a|e]] eqn:Em; intros H.
  - inversion H; subst. eapply Hm; eauto.
  - destruct (C e).
    + eapply entry_frame_trans; [eapply Hm; eauto | eapply Hh; eauto].
    + inversion H; subst. eapply Hm; eauto.
Qed.

Lemma keeps_entry_for_each {A} run tr (l : list A) (body : A -> M unit) :
  (forall y, keeps (entry_frame run tr) (body y)) ->
  keeps (entry_frame run tr) (for_each l body).
Proof.
  intros Hb. induction l as [|y l IH]; simpl.
  - apply (keeps_entry false), keeps_ret.
  - apply keeps_entry_bind; [apply Hb | intros _; apply IH].
Qed.

(** The call of a training entry point works on the heap and adds its
    event to the trace. *)
Lemma keeps_eval_call tr run args trial scope :
  keeps (entry_frame run tr) (eval_call run args trial scope).
Proof.
  intros s s' r H [c Hg]. revert H. unfold eval_call. rewrite Hg.
  destruct (c args (heap (log (ECall run args) s))) as [h o].
  intros H. inversion H; subst. apply frame_heap; try reflexivity. discriminate.
Qed.

(** With [agent] bound to [None] the body of the loop ends at the test
    [agent.is_eval]: the report and the pruning test are never reached. *)
Lemma keeps_loop_body tr run config epoch :
  keeps (entry_frame run tr) (loop_body tr run config VNone epoch).
Proof.
  unfold loop_body. apply keeps_entry_bind; [apply keeps_eval_call|]. intros _.
  intros s s' r H _. unfold bind, getattr in H. simpl in H.
  inversion H. apply frame_refl.
Qed.

Lemma keeps_objective tr cfg run :
  keeps (entry_frame run tr) (objective tr cfg run).
Proof.
  unfold objective.
  apply keeps_entry_bind; [apply (keeps_entry true), keeps_sample_td3_params|].
  intros config. cbv zeta.
  apply keeps_entry_bind.
  - apply keeps_entry_try_except.
    + unfold train.
      repeat (cbv beta;
              first [ apply keeps_entry_for_each; intros ?; apply keeps_loop_body
                    | apply (keeps_entry false), keeps_assign
                    | apply (keeps_entry false), keeps_attr
                    | apply (keeps_entry false), keeps_lift
                    | apply (keeps_entry false), keeps_ret
                    | apply keeps_entry_bind; [|intros ?] ]).
    + intros e. apply (keeps_entry false).
      apply keeps_bind; [apply keeps_print | intros; apply keeps_ret].
  - intros [|]; apply (keeps_entry false); [apply keeps_ret | apply keeps_getattr].
Qed.

(** ** Further properties of [sample_td3_params] *)

Lemma bind_fail {A B} (m : M A) (f : A -> M B) s s1 e :
  m s = (s1, Raise e) -> bind m f s = (s1, Raise e).
Proof. unfold bind. intros ->. reflexivity. Qed.

Lemma attr_fail o p s e :
  resolve (heap s) o p = inl e -> attr o p s = (s, Raise e).
Proof. unfold attr. intros ->. reflexivity. Qed.

Lemma copy_run c s root :
  heap s !! c = Some root ->
  copy (VRef c) s = (set_heap (copied (heap s)) s, Ret (VRef (c + length (heap s)))).
Proof. intros Hc. unfold copy. rewrite Hc. reflexivity. Qed.

Lemma resolve_cons_inr h o k p v :
  resolve h o (k :: p) = inr v ->
  exists w, lookup_attr h o k = inr w /\ resolve h w p = inr v.
Proof.
  simpl. destruct (lookup_attr h o k) as [e|w]; [discriminate | eauto].
Qed.

Lemma lookup_attr_ref h o k v :
  lookup_attr h o k = inr v -> exists a, o = VRef a /\ is_Some (h !! a).
Proof.
  destruct o as [| | | | | |a]; try discriminate.
  intros H. exists a. split; [reflexivity | eapply lookup_attr_node; eauto].
Qed.

Lemma suggest_float_run tr name lo hi s t f :
  trials s !! tr = Some t -> lookup_param name (t_params t) = None ->
  t_draw_float t name lo hi = inr f ->
  suggest_float tr name lo hi s
  = (set_trials (<[tr := add_param name (PFloat f) t]> (trials s)) s, Ret (VFloat f)).
Proof. intros Ht Hn Hd. unfold suggest_float. rewrite Ht, Hn, Hd. reflexivity. Qed.

Lemma suggest_int_fail tr name lo hi s t e :
  trials s !! tr = Some t -> lookup_param name (t_params t) = None ->
  t_draw_int t name lo hi = inl e ->
  suggest_int tr name lo hi s = (s, Raise e).
Proof. intros Ht Hn Hd. unfold suggest_int. rewrite Ht, Hn, Hd. reflexivity. Qed.

Lemma unwritten_avoids p k :
  unwritten p = true -> In k td3_written -> avoids k p = true.
Proof.
  unfold unwritten. rewrite forallb_forall. auto.
Qed.

(** X1. Whether it returns or raises, [sample_td3_params] works on the heap
    and on the parameters of its own trial only: it keeps the number of
    trials, the records of the other trials, the reports, status and value
    of its trial, the pruner and the globals, and it adds nothing to the
    trace (no print, no call of an entry point). *)
Theorem sample_td3_params_frame tr cfg s s' (r : outcome value) :
  sample_td3_params tr cfg s = (s', r) ->
  length (trials s') = length (trials s) /\
  (forall i, i <> tr -> trials s' !! i = trials s !! i) /\
  (forall t, trials s !! tr = Some t ->
     exists t', trials s' !! tr = Some t' /\ t_reports t' = t_reports t /\
                t_status t' = t_status t /\ t_value t' = t_value t) /\
  pruner s' = pruner s /\ globals s' = globals s /\ trace s' = trace s.
Proof.
  intros H. apply (keeps_sample_td3_params true) in H.
  destruct H as (L & O & T & P & G & Q). auto 10.
Qed.

(** X2. The copy has the fields of its source where the sampler assigns
    nothing: a path that uses none of the assigned keys resolves from the
    returned configuration to the duplicate of what it resolves to from the
    base configuration, which for a value without references (a number, a
    string, [None], a list of such) is that value. *)
Theorem sample_td3_params_keeps_unwritten tr cfg s s' params t p v :
  trials s !! tr = Some t -> t_params t = [] ->
  sample_td3_params tr cfg s = (s', Ret params) ->
  unwritten p = true ->
  resolve (heap s) cfg p = inr v ->
  resolve (heap s') params p = inr (relocate (length (heap s)) v) /\
  (plain v = true -> resolve (heap s') params p = inr v).
Proof.
  intros Ht Hfresh Hrun Hp Hv.
  sampled Ht Hfresh Hrun.
  assert (Hav : forall key, In key td3_written -> avoids key p = true)
    by (intros key; apply unwritten_avoids; assumption).
  assert (Hres : resolve (heap s') params p = inr (relocate (length (heap s)) v)).
  { rewrite Rstate, heap_at. unfold td3_heap, td3_stores.
    rewrite !resolve_store_other by (apply Hav; simpl; tauto).
    rewrite Rparams, resolve_copy, <- Rcfg, Hv. reflexivity. }
  split; [assumption|].
  intros Hplain. rewrite Hres, relocate_plain by assumption. reflexivity.
Qed.

(** X4. A call that fails leaves the base configuration as it was, but not
    the trial: when the draw of [discount_factor] has succeeded and the draw
    of [n_steps] is refused, the call raises that error with every object of
    the heap unchanged (the drawn value went to the copy) and with that one
    parameter recorded in the trial. *)
Theorem sample_td3_params_refused_draw tr c s t root lo hi f lo1 hi1 e :
  trials s !! tr = Some t -> t_params t = [] ->
  heap s !! c = Some root ->
  resolve (heap s) (VRef c) ["algorithm"; "discount_factor"; "min"] = inr lo ->
  resolve (heap s) (VRef c) ["algorithm"; "discount_factor"; "max"] = inr hi ->
  t_draw_float t "discount_factor" lo hi = inr f ->
  resolve (heap s) (VRef c) ["algorithm"; "n_steps"; "min"] = inr lo1 ->
  resolve (heap s) (VRef c) ["algorithm"; "n_steps"; "max"] = inr hi1 ->
  t_draw_int t "n_steps" lo1 hi1 = inl e ->
  exists sf t',
    sample_td3_params tr (VRef c) s = (sf, Raise e) /\
    extends (heap s) (heap sf) /\
    resolve (heap sf) (VRef c) ["algorithm"; "discount_factor"; "min"] = inr lo /\
    trials sf !! tr = Some t' /\
    t_params t' = [("discount_factor", PFloat f)].
Proof.
  intros Ht Hfresh Hc Hlo Hhi Hf Hlo1 Hhi1 He.
  assert (Hlt : tr < length (trials s)) by (eapply lookup_lt_Some; eauto).
  destruct (resolve_cons_inr _ _ _ _ _ Hlo) as (w & Hw & Hrest).
  destruct (resolve_cons_inr _ _ _ _ _ Hrest) as (w2 & Hw2 & _).
  destruct (lookup_attr_ref _ _ _ _ Hw2) as (a & -> & Ha).
  set (n := length (heap s)).
  set (h0 := copied (heap s)).
  assert (Halg : resolve h0 (VRef (c + n)) ["algorithm"] = inr (VRef (a + n))).
  { unfold h0, n. rewrite resolve_copy, resolve_single, Hw. reflexivity. }
  assert (Ha0 : is_Some (h0 !! (a + n))).
  { unfold h0, n. rewrite lookup_copied. destruct Ha as [nd ->]. eauto. }
  set (t1 := add_param "discount_factor" (PFloat f) t).
  set (s2 := set_trials (<[tr := t1]> (trials s)) (set_heap h0 s)).
  set (s3 := set_heap (store (a + n) "discount_factor" (VFloat f) h0) s2).
  assert (Ht1 : trials s3 !! tr = Some t1)
    by (apply list_lookup_insert_eq; assumption).
  assert (Hext : extends (heap s) (heap s3)).
  { unfold s3. cbn [heap set_heap].
    apply extends_store; [apply extends_copied | unfold n; lia]. }
  exists s3, t1. split; [|split; [|split; [|split]]].
  - unfold sample_td3_params.
    rewrite (bind_run _ _ _ _ _ (copy_run _ _ _ Hc)). fold h0. fold n.
    rewrite (bind_run _ _ _ _ _
               (attr_run _ _ (set_heap h0 s) _ (resolve_copied_old _ _ _ _ Hlo))).
    rewrite (bind_run _ _ _ _ _
               (attr_run _ _ (set_heap h0 s) _ (resolve_copied_old _ _ _ _ Hhi))).
    rewrite (bind_run _ _ _ _ _
               (suggest_float_run tr _ lo hi (set_heap h0 s) t f Ht
                  ltac:(rewrite Hfresh; reflexivity) Hf)).
    fold t1. fold s2.
    rewrite (bind_run _ _ _ _ _ (assign_run _ _ _ _ s2 (a + n) Halg Ha0)).
    fold s3.
    rewrite (bind_run _ _ _ _ _
               (attr_run _ _ s3 _ (resolve_extends _ _ _ _ _ Hext Hlo1))).
    rewrite (bind_run _ _ _ _ _
               (attr_run _ _ s3 _ (resolve_extends _ _ _ _ _ Hext Hhi1))).
    apply bind_fail.
    apply (suggest_int_fail tr _ lo1 hi1 s3 t1 e Ht1);
      [unfold t1; cbn [t_params add_param]; rewrite Hfresh; reflexivity
      | exact He].
  - exact Hext.
  - apply (resolve_extends _ _ _ _ _ Hext Hlo).
  - exact Ht1.
  - unfold t1. cbn [t_params add_param]. rewrite Hfresh. reflexivity.
Qed.

(** ** Further properties of [objective] *)

(** X5. Called with the name of a training entry point, [objective],
    whether it returns or raises, never reports an intermediate value and
    never changes the status or the value of a trial: with [agent] left at
    [None] the report and the pruning test of the loop are dead code. It
    keeps the number of trials, the records of the other trials, the pruner
    and the globals. *)
Theorem objective_frame tr cfg run s s' (r : outcome value) :
  is_Some (globals s run) ->
  objective tr cfg run s = (s', r) ->
  length (trials s') = length (trials s) /\
  (forall i, i <> tr -> trials s' !! i = trials s !! i) /\
  (forall t, trials s !! tr = Some t ->
     exists t', trials s' !! tr = Some t' /\ t_reports t' = t_reports t /\
                t_status t' = t_status t /\ t_value t' = t_value t) /\
  pruner s' = pruner s /\ globals s' = globals s.
Proof.
  intros Hg H. apply keeps_objective in H.
  destruct (H Hg) as (L & O & T & P & G & _). auto 10.
Qed.

(** X6. The sampler writes [max_epochs] and the objective reads
    [max_epoch]: when the [algorithm] node of the base configuration has no
    key [max_epoch], [objective] raises [AttributeError] on that key right
    after the sampling, for every entry point, without calling it and
    without printing. *)
Theorem objective_missing_max_epoch tr cfg run s s1 config t a nd :
  trials s !! tr = Some t -> t_params t = [] ->
  resolve (heap s) cfg ["algorithm"] = inr (VRef a) ->
  heap s !! a = Some nd -> nd !! "max_epoch" = None ->
  sample_td3_params tr cfg s = (s1, Ret config) ->
  objective tr cfg run s = (s1, Raise (Exn AttributeError "max_epoch")) /\
  trace s1 = trace s.
Proof.
  intros Ht Hfresh Ha Hnd Hkey Hrun.
  pose proof Hrun as Hrun'.
  sampled Ht Hfresh Hrun'.
  assert (Hres : resolve (heap s1) config ["algorithm"; "max_epoch"]
                 = inl (Exn AttributeError "max_epoch")).
  { rewrite Rstate, heap_at. unfold td3_heap, td3_stores.
    rewrite !resolve_store_other by reflexivity.
    rewrite Rparams, resolve_copy, <- Rcfg.
    change ["algorithm"; "max_epoch"] with (["algorithm"] ++ ["max_epoch"])%list.
    rewrite resolve_app, Ha, resolve_single. simpl. rewrite Hnd, Hkey.
    reflexivity. }
  split; [|rewrite Rstate; reflexivity].
  unfold objective. rewrite (bind_run _ _ _ _ _ Hrun). cbv zeta.
  apply bind_fail. unfold try_except, train.
  rewrite (bind_fail _ _ _ _ _ (attr_fail _ _ _ _ Hres)). reflexivity.
Qed.

(** ** Further properties of [tune] and [main] *)

Lemma tell_at trial st w s t :
  trials (tell trial st w s) !! trial = Some t -> t_status t = st.
Proof.
  unfold tell. destruct (trials s !! trial) as [t0|] eqn:E.
  - cbn [trials set_trials].
    rewrite list_lookup_insert_eq by (eapply lookup_lt_Some; eauto).
    intros H. injection H as <-. reflexivity.
  - rewrite E. discriminate.
Qed.

Lemma tell_globals trial st w s : globals (tell trial st w s) = globals s.
Proof. unfold tell. destruct (trials s !! trial); reflexivity. Qed.

(** A trial run with [objective] and a training entry point never ends
    completed: the objective returns NaN or raises. *)
Lemma run_trial_objective cfg run s s' (r : outcome unit) :
  is_nan nan = true -> is_Some (globals s run) ->
  run_trial (fun trial => objective trial cfg run) s = (s', r) ->
  no_complete (trials s) ->
  no_complete (trials s') /\ globals s' = globals s.
Proof.
  intros Hnan Hg Hrun Hno. revert Hrun. unfold run_trial.
  destruct (objective (length (trials s)) cfg run
              (set_trials (trials s ++ [new_trial s]) s)) as [s1 o] eqn:Eo.
  destruct (keeps_objective _ _ _ _ _ _ Eo Hg) as (_ & O & _ & _ & G & _).
  cbn [trials set_trials globals] in O, G.
  assert (Hgen : forall st w, st <> Complete ->
    no_complete (trials (tell (length (trials s)) st w s1)) /\
    globals (tell (length (trials s)) st w s1) = globals s).
  { intros st w Hst. split; [|rewrite tell_globals; exact G].
    intros i t Hi. destruct (decide (i = length (trials s))) as [->|Hne].
    - apply tell_at in Hi. congruence.
    - rewrite tell_other, O in Hi by assumption.
      destruct (Nat.lt_ge_cases i (length (trials s))) as [Hlt|Hge].
      + rewrite lookup_app_l in Hi by assumption. eapply Hno; eauto.
      + apply lookup_lt_Some in Hi. rewrite length_app in Hi. simpl in Hi. lia. }
  destruct o as [v|e].
  - apply objective_returns_only_nan in Eo. subst v.
    cbn [as_float]. rewrite Hnan. intros H. inversion H; subst.
    apply Hgen. discriminate.
  - destruct (is_TrialPruned e); intros H; inversion H; subst;
      apply Hgen; discriminate.
Qed.

Lemma optimize_loop_objective cfg run n : forall s s' (r : outcome unit),
  is_nan nan = true -> is_Some (globals s run) ->
  optimize_loop (fun trial => objective trial cfg run) n s = (s', r) ->
  no_complete (trials s) -> no_complete (trials s').
Proof.
  induction n as [|n IH]; intros s s' r Hnan Hg; simpl.
  - unfold ret. intros H. inversion H. auto.
  - unfold bind.
    destruct (run_trial (fun trial => objective trial cfg run) s)
      as [s1 [u|e]] eqn:Et; intros H Hno;
      destruct (run_trial_objective _ _ _ _ _ Hnan Hg Et Hno) as [Hno1 G].
    + apply (IH s1 s' r Hnan); [rewrite G|..]; assumption.
    + inversion H; subst. assumption.
Qed.

Lemma best_among_no_complete ts : forall acc,
  no_complete ts -> best_among ts acc = acc.
Proof.
  induction ts as [|t ts IH]; intros acc Hno; [reflexivity|].
  assert (Ht : t_status t <> Complete) by (apply (Hno 0 t); reflexivity).
  assert (Hts : no_complete ts) by (intros i t' Hi; apply (Hno (S i) t'); exact Hi).
  simpl. destruct (t_status t); try contradiction; destruct (t_value t), acc;
    apply IH; assumption.
Qed.

Lemma tune_report_none_logs s es :
  best_among (trials s) None = None ->
  tune_report (logs es s)
  = (logs (es ++ [EPrint [VStr "Number of finished trials: ";
                          VInt (Z.of_nat (length (trials s)))];
                  EPrint [VStr "Best trial:"]]) s,
     Raise (Exn ValueError "No trials are completed yet.")).
Proof.
  intros Hb. unfold tune_report.
  assert (Hts : forall es', study_trials (logs es' s) = (logs es' s, Ret (trials s)))
    by reflexivity.
  rewrite (bind_run _ _ _ _ _ (Hts _)).
  rewrite (bind_run _ _ _ _ _ (print_logs _ _ s)).
  rewrite (bind_run _ _ _ _ _ (print_logs _ _ s)).
  rewrite <- app_assoc. apply bind_fail.
  unfold best_trial. cbn [trials logs]. rewrite Hb. reflexivity.
Qed.

Lemma tune_report_none s :
  best_among (trials s) None = None ->
  tune_report s
  = (logs [EPrint [VStr "Number of finished trials: ";
                   VInt (Z.of_nat (length (trials s)))];
           EPrint [VStr "Best trial:"]] s,
     Raise (Exn ValueError "No trials are completed yet.")).
Proof.
  intros Hb. rewrite <- (logs_nil s) at 1.
  apply (tune_report_none_logs s [] Hb).
Qed.

Lemma attr_Ret o p s s' v :
  attr o p s = (s', Ret v) -> s' = s /\ resolve (heap s) o p = inr v.
Proof. unfold attr. intros H. apply lift_Ret in H. exact H. Qed.

Lemma tune_create_study_empty cfg s s0 (u : unit) :
  tune_create_study cfg s = (s0, Ret u) -> trials s0 = [] /\ globals s0 = globals s.
Proof.
  unfold tune_create_study. intros H.
  apply bind_Ret in H as (s1 & v1 & E1 & H). apply attr_Ret in E1 as [-> _].
  apply bind_Ret in H as (s1 & v2 & E1 & H). apply attr_Ret in E1 as [-> _].
  apply bind_Ret in H as (s1 & v3 & E1 & H). apply attr_Ret in E1 as [-> _].
  apply bind_Ret in H as (s1 & v4 & E1 & H). apply lift_Ret in E1 as [-> _].
  apply bind_Ret in H as (s1 & pr & E1 & H).
  unfold new_MedianPruner in E1.
  assert (Hs1 : s1 = s).
  { destruct (as_int v2), (as_int v4); try discriminate.
    destruct (_ <? 0)%Z; [discriminate|].
    destruct (_ <? 0)%Z; [discriminate|].
    unfold ret in E1. injection E1 as -> _. reflexivity. }
  subst s1. unfold create_study in H. inversion H. split; reflexivity.
Qed.

Lemma tune_search_objective cfg run s0 s1 (r : outcome unit) :
  is_nan nan = true -> is_Some (globals s0 run) ->
  tune_search objective cfg run s0 = (s1, r) ->
  no_complete (trials s0) -> no_complete (trials s1).
Proof.
  intros Hnan Hg. unfold tune_search, try_except.
  match goal with
  | |- context [match ?inner s0 with _ => _ end] =>
      assert (Hin : forall s2 (r2 : outcome unit), inner s0 = (s2, r2) ->
                    no_complete (trials s0) -> no_complete (trials s2));
      [|destruct (inner s0) as [s2 [u|e]] eqn:E]
  end.
  - intros s2 r2. unfold bind, attr.
    destruct (resolve (heap s0) cfg ["study"; "n_trials"]) as [e|nt];
      [intros H; inversion H; subst; auto|].
    cbn [lift ret raise].
    destruct (resolve (heap s0) cfg ["study"; "n_jobs"]) as [e|nj];
      [intros H; inversion H; subst; auto|].
    cbn [lift ret raise].
    destruct (resolve (heap s0) cfg ["study"; "timeout"]) as [e|tmo];
      [intros H; inversion H; subst; auto|].
    cbn [lift ret raise]. unfold optimize.
    destruct (as_int nt); [|intros H; inversion H; subst; auto].
    apply optimize_loop_objective; assumption.
  - intros H. inversion H; subst. eapply Hin; eauto.
  - destruct (is_KeyboardInterrupt e); intros H; inversion H; subst;
      eapply Hin; eauto.
Qed.

Lemma tune_objective_raises cfg run s sf (r : outcome unit) :
  is_nan nan = true -> is_Some (globals s run) ->
  tune objective cfg run s = (sf, r) -> exists e, r = Raise e.
Proof.
  intros Hnan Hg. unfold tune. unfold bind at 1.
  destruct (tune_create_study cfg s) as [s0 [u|e]] eqn:Ec;
    [|intros H; inversion H; eauto].
  apply tune_create_study_empty in Ec as [Ec G].
  unfold bind at 1.
  destruct (tune_search objective cfg run s0) as [s1 [u1|e]] eqn:Es;
    [|intros H; inversion H; eauto].
  assert (Hno : no_complete (trials s1)).
  { apply (tune_search_objective cfg run s0 s1 (Ret u1) Hnan);
      [rewrite G; assumption | assumption |].
    rewrite Ec. intros j t Hj. discriminate. }
  rewrite (bind_fail _ _ _ _ _
             (tune_report_none s1 (best_among_no_complete _ None Hno))).
  intros H. inversion H. eauto.
Qed.

Lemma load_globals path s s' (r : outcome value) :
  load path s = (s', r) -> globals s' = globals s.
Proof.
  unfold load. destruct (globals s "OmegaConf.load") as [c|].
  - destruct (c [VStr path] (heap s)) as [h o].
    intros H. inversion H. reflexivity.
  - intros H. inversion H. reflexivity.
Qed.

Lemma argv_get_Ret argv i s s' a :
  argv_get argv i s = (s', Ret a) -> s' = s /\ argv !! i = Some a.
Proof.
  unfold argv_get. destruct (argv !! i); [|discriminate].
  unfold ret. intros H. inversion H. auto.
Qed.

(** X8. With the objective of this module and the name of a training entry
    point, [tune] never ends normally: no trial can complete (the objective
    returns NaN or raises), so either the creation of the study or the
    search raises, or the report raises [ValueError] at [study.best_trial].
    The one law of floats used is that NaN tests as NaN. *)
Theorem tune_objective_never_returns cfg run s sf (r : outcome unit) :
  is_nan nan = true -> is_Some (globals s run) ->
  tune objective cfg run s = (sf, r) -> exists e, r = Raise e.
Proof. apply tune_objective_raises. Qed.

(** X9. The same holds for the program as a whole: for every command line
    whose second argument, if there is one, is the name of a training entry
    point, [main] ends with an exception. *)
Theorem main_never_returns argv s sf (r : outcome unit) :
  is_nan nan = true ->
  (forall run, argv !! 1 = Some run -> is_Some (globals s run)) ->
  main argv s = (sf, r) -> exists e, r = Raise e.
Proof.
  intros Hnan Hg. unfold main, bind.
  destruct (argv_get argv 0 s) as [s1 [file|e]] eqn:E0;
    [|intros H; inversion H; eauto].
  apply argv_get_Ret in E0 as [-> _].
  destruct (load ("./configs/" ++ file) s) as [s2 [cfg|e]] eqn:El;
    [|intros H; inversion H; eauto].
  apply load_globals in El.
  destruct (argv_get argv 1 s2) as [s3 [run|e]] eqn:E1;
    [|intros H; inversion H; eauto].
  apply argv_get_Ret in E1 as [-> E1].
  apply tune_objective_raises; [assumption|].
  rewrite El. apply Hg. assumption.
Qed.

(** X10. With fewer than two arguments [main] raises [IndexError]: at once
    for an empty command line, and only after the configuration has been
    loaded from ["./configs/" + argv[0]] when the entry-point name is
    missing; in both cases no study is created (the trials and the pruner
    are as before). *)
Theorem main_missing_arguments s :
  main [] s = (s, Raise (Exn (OtherError "IndexError") "list index out of range"))
  /\
  forall file c h cfg,
    globals s "OmegaConf.load" = Some c ->
    c [VStr ("./configs/" ++ file)] (heap s) = (h, Ret cfg) ->
    main [file] s
    = (set_heap h s, Raise (Exn (OtherError "IndexError") "list index out of range")).
Proof.
  split; [reflexivity|].
  intros file c h cfg Hg Hc. unfold main, bind. cbn [argv_get lookup].
  unfold load. simpl. rewrite Hg, Hc. reflexivity.
Qed.

(** X11. [tune] checks the two warm-up counts before any trial is run: with
    integer counts [N] and [W] in the configuration, the study is created
    exactly when neither is negative (the floor division by 3 keeps the
    sign), with an empty list of trials; otherwise [tune] raises
    [ValueError] in the state it was called in, whatever the objective. *)
Theorem tune_validates_warmup
    (obj : nat -> value -> string -> M value) cfg run s N W :
  resolve (heap s) cfg ["study"; "n_startup_trials"] = inr (VInt N) ->
  resolve (heap s) cfg ["study"; "n_warmup_steps"] = inr (VInt W) ->
  ((0 <= N)%Z /\ (0 <= W)%Z ->
   tune_create_study cfg s
   = (set_pruner {| n_startup_trials := N; n_warmup_steps := W / 3 |}
        (set_trials [] s), Ret tt))
  /\
  ((N < 0)%Z \/ (W < 0)%Z ->
   exists e, exn_cls e = ValueError /\
     tune_create_study cfg s = (s, Raise e) /\
     tune obj cfg run s = (s, Raise e)).
Proof.
  intros HN HW.
  assert (Hrun : tune_create_study cfg s
                 = bind (new_MedianPruner (VInt N) (VInt (W / 3))) create_study s).
  { unfold tune_create_study.
    rewrite !(bind_run _ _ _ _ _ (attr_run _ _ _ _ HN)).
    rewrite (bind_run _ _ _ _ _ (attr_run _ _ _ _ HW)).
    unfold floordiv. cbn [as_int]. change (3 =? 0)%Z with false. cbn [lift].
    unfold bind at 1. cbn [ret]. reflexivity. }
  assert (Hsign : (W / 3 < 0)%Z <-> (W < 0)%Z).
  { split; intros Hlt.
    - destruct (Z.lt_ge_cases W 0) as [|Hge]; [assumption|].
      pose proof (Z.div_pos W 3 Hge ltac:(lia)). lia.
    - apply Z.div_lt_upper_bound; lia. }
  rewrite Hrun. unfold bind, new_MedianPruner. cbn [as_int]. split.
  - intros [HN0 HW0].
    destruct (Z.ltb_spec N 0) as [|_]; [lia|].
    destruct (Z.ltb_spec (W / 3) 0) as [Hlt|_]; [apply Hsign in Hlt; lia|].
    reflexivity.
  - intros Hneg.
    destruct (Z.ltb_spec N 0) as [HN0|HN0].
    + eexists. split; [|split; [reflexivity|]]; [reflexivity|].
      unfold tune. apply bind_fail. rewrite Hrun. unfold bind, new_MedianPruner.
      cbn [as_int]. destruct (Z.ltb_spec N 0); [reflexivity | lia].
    + destruct (Z.ltb_spec (W / 3) 0) as [HW0|HW0];
        [|exfalso; destruct Hneg as [|Hneg]; [lia | apply Hsign in Hneg; lia]].
      eexists. split; [|split; [reflexivity|]]; [reflexivity|].
      unfold tune. apply bind_fail. rewrite Hrun. unfold bind, new_MedianPruner.
      cbn [as_int]. destruct (Z.ltb_spec N 0); [lia|].
      destruct (Z.ltb_spec (W / 3) 0); [reflexivity | lia].
Qed.

(** X12. When the search ends, normally or on an interrupt, with no
    completed trial in the study, [tune] prints the number of trials and
    the line "Best trial:" and then raises the [ValueError] of
    [study.best_trial]: no trial table is exported and nothing is plotted. *)
Theorem tune_without_completed_trial
    (obj : nat -> value -> string -> M value) cfg run s s0 s1 :
  tune_create_study cfg s = (s0, Ret tt) ->
  tune_search obj cfg run s0 = (s1, Ret tt) ->
  no_complete (trials s1) ->
  tune obj cfg run s
  = (logs [EPrint [VStr "Number of finished trials: ";
                   VInt (Z.of_nat (length (trials s1)))];
           EPrint [VStr "Best trial:"]] s1,
     Raise (Exn ValueError "No trials are completed yet.")).
Proof.
  intros Hc Hs Hno. unfold tune.
  rewrite (bind_run _ _ _ _ _ Hc), (bind_run _ _ _ _ _ Hs).
  apply bind_fail, tune_report_none, best_among_no_complete. assumption.
Qed.

(** X13. An exception that leaves the search loop and is no
    [KeyboardInterrupt] leaves [tune] as well, in the state in which the
    loop was left: nothing is printed, exported or plotted after it. *)
Theorem tune_search_error_propagates
    (obj : nat -> value -> string -> M value) cfg run s s0 s1 (n : Z) nj tmo e :
  tune_create_study cfg s = (s0, Ret tt) ->
  resolve (heap s0) cfg ["study"; "n_trials"] = inr (VInt n) ->
  resolve (heap s0) cfg ["study"; "n_jobs"] = inr nj ->
  resolve (heap s0) cfg ["study"; "timeout"] = inr tmo ->
  optimize_loop (fun trial => obj trial cfg run) (Z.to_nat n) s0 = (s1, Raise e) ->
  is_KeyboardInterrupt e = false ->
  tune obj cfg run s = (s1, Raise e).
Proof.
  intros Hc Hn Hj Ht Hloop He. unfold tune.
  rewrite (bind_run _ _ _ _ _ Hc). apply bind_fail.
  unfold tune_search, try_except.
  rewrite (bind_run _ _ _ _ _ (attr_run _ _ _ _ Hn)).
  rewrite (bind_run _ _ _ _ _ (attr_run _ _ _ _ Hj)).
  rewrite (bind_run _ _ _ _ _ (attr_run _ _ _ _ Ht)).
  unfold optimize. cbn [as_int]. rewrite Hloop, He. reflexivity.
Qed.

(** X14. After a search that ends with a completed trial, the report comes
    before the figures: if the rendering library refuses one of the two
    figures, [tune] raises its error with the summary printed and the
    trial table exported, and shows no figure; if it accepts both, [tune]
    shows them in the order history, importances and returns. *)
Theorem tune_report_then_plots
    (obj : nat -> value -> string -> M value) cfg run s s0 s1 b :
  tune_create_study cfg s = (s0, Ret tt) ->
  tune_search obj cfg run s0 = (s1, Ret tt) ->
  best_among (trials s1) None = Some b ->
  (forall e, render s1 "optimization_history" (trials s1) = Some e ->
     tune obj cfg run s = (logs (report_events (trials s1) b) s1, Raise e))
  /\
  (forall e, render s1 "optimization_history" (trials s1) = None ->
     render s1 "param_importances" (trials s1) = Some e ->
     tune obj cfg run s = (logs (report_events (trials s1) b) s1, Raise e))
  /\
  (render s1 "optimization_history" (trials s1) = None ->
   render s1 "param_importances" (trials s1) = None ->
   tune obj cfg run s
   = (logs (report_events (trials s1) b
            ++ [EShow "optimization_history"; EShow "param_importances"]) s1,
      Ret tt)).
Proof.
  intros Hc Hs Hb.
  assert (Htune : tune obj cfg run s
                  = tune_plots (logs (report_events (trials s1) b) s1)).
  { unfold tune.
    rewrite (bind_run _ _ _ _ _ Hc), (bind_run _ _ _ _ _ Hs).
    rewrite (bind_run _ _ _ _ _ (tune_report_run _ _ Hb)). reflexivity. }
  rewrite Htune. unfold tune_plots, bind, plot. cbn [render trials logs].
  split; [|split].
  - intros e ->. reflexivity.
  - intros e -> H2. cbn [render trials logs]. rewrite H2. reflexivity.
  - intros -> H2. cbn [render trials logs]. rewrite H2.
    change (log ?ev (logs ?es s1)) with (logs [ev] (logs es s1)).
    rewrite logs_logs.
    change (log ?ev (logs ?es s1)) with (logs [ev] (logs es s1)).
    rewrite logs_logs, <- app_assoc. reflexivity.
Qed.

(** X15. The step gate of the pruner that [tune] builds opens at a third of
    the configured count: once the study has its warm-up number of
    completed trials (and at least one), a trial whose last reported step
    is [cfg.study.n_warmup_steps // 3] or later is pruned exactly when the
    median comparison says so. *)
Theorem tune_pruner_gate_opens cfg s s' N W ts t step :
  resolve (heap s) cfg ["study"; "n_startup_trials"] = inr (VInt N) ->
  resolve (heap s) cfg ["study"; "n_warmup_steps"] = inr (VInt W) ->
  tune_create_study cfg s = (s', Ret tt) ->
  last_step t = Some step -> (W / 3 <= step)%Z ->
  (N <= Z.of_nat (length (completed ts)))%Z ->
  (0 < Z.of_nat (length (completed ts)))%Z ->
  prune (pruner s') ts t
  = median_below (map t_reports (completed ts)) (t_reports t) step.
Proof.
  intros HN HW Hrun Hlast Hstep Hcount Hpos.
  rewrite (tune_create_study_Ret _ _ _ _ _ _ HN HW Hrun).
  cbn [pruner set_pruner]. unfold prune. cbn [n_startup_trials n_warmup_steps].
  rewrite Hlast.
  destruct (Z.eqb_spec (Z.of_nat (length (completed ts))) 0); [lia|].
  destruct (Z.ltb_spec (Z.of_nat (length (completed ts))) N); [lia|].
  destruct (Z.ltb_spec step (W / 3)); [lia | reflexivity].
Qed.

End Facts.

(** * The properties on a concrete study *)

Import Exact.

Lemma low_int_in_range : int_draws_in_range fresh_trial.
Proof.
  intros name a b e. simpl. unfold low_int.
  destruct (Z.leb_spec a b) as [Hle|Hgt]; intros Hdraw; inversion Hdraw; lia.
Defined.

Lemma run_fst {A} (m : M A) (s : state) (a : A) :
  snd (m s) = Ret a -> m s = (fst (m s), Ret a).
Proof. destruct (m s). simpl. intros ->. reflexivity. Defined.

Lemma sampled0_run : sample_td3_params 0 cfg0 st0 = (sampled0, Ret config0).
Proof.
  unfold sampled0. apply (run_fst (sample_td3_params 0 cfg0) st0 config0).
  vm_compute. reflexivity.
Defined.

Lemma sample_td3_params_powers_of_two_witness :
  exists n_steps ahs chs,
    pow2_within 7 9 n_steps /\ pow2_within 5 8 ahs /\ pow2_within 5 8 chs /\
    resolve (heap sampled0) config0 ["algorithm"; "n_steps"] = inr n_steps /\
    resolve (heap sampled0) config0 ["algorithm"; "architecture"; "actor_hidden_size"]
      = inr (VList [ahs; ahs]) /\
    resolve (heap sampled0) config0 ["algorithm"; "architecture"; "critic_hidden_size"]
      = inr (VList [chs; chs]).
Proof.
  apply (sample_td3_params_powers_of_two 0 cfg0 st0 sampled0 config0 fresh_trial
           7 9 5 8 5 8).
  - reflexivity.
  - reflexivity.
  - exact low_int_in_range.
  - vm_compute. reflexivity.
  - vm_compute. reflexivity.
  - vm_compute. reflexivity.
  - vm_compute. reflexivity.
  - vm_compute. reflexivity.
  - vm_compute. reflexivity.
  - exact sampled0_run.
Defined.

Lemma sample_td3_params_max_epochs_witness :
  exists max_epochs t',
    resolve (heap sampled0) config0 ["algorithm"; "max_epochs"] = inr (VInt max_epochs) /\
    max_epochs = (1000000 / 128)%Z /\
    (max_epochs * 128 <= 1000000 < (max_epochs + 1) * 128)%Z /\
    trials sampled0 !! 0 = Some t' /\
    lookup_param "max_epochs" (t_params t') = None.
Proof.
  apply (sample_td3_params_max_epochs 0 cfg0 st0 sampled0 config0 fresh_trial
           1000000 128).
  - reflexivity.
  - reflexivity.
  - vm_compute. reflexivity.
  - exact sampled0_run.
  - vm_compute. reflexivity.
  - lia.
Defined.

Lemma sample_td3_params_action_std_witness :
  exists t' f,
    trials sampled0 !! 0 = Some t' /\
    lookup_param "action_std" (t_params t') = Some (PFloat f) /\
    lookup_param "action_noise" (t_params t') = None /\
    resolve (heap sampled0) config0 ["algorithm"; "action_noise"] = inr (VFloat f) /\
    map fst (t_params t') =
      ["discount_factor"; "n_steps"; "buffer_size"; "batch_size"; "tau_target";
       "action_std"; "actor_hidden_size"; "critic_hidden_size"; "actor_lr";
       "critic_lr"].
Proof.
  apply (sample_td3_params_action_std 0 cfg0 st0 sampled0 config0 fresh_trial).
  - reflexivity.
  - reflexivity.
  - exact sampled0_run.
Defined.

Lemma sample_td3_params_independent_witness :
  extends (heap st0) (heap sampled0) /\
  (forall q v, resolve (heap st0) cfg0 q = inr v -> resolve (heap sampled0) cfg0 q = inr v) /\
  (forall p k x s'',
     assign config0 p k x sampled0 = (s'', Ret tt) ->
     extends (heap st0) (heap s'') /\
     forall q v, resolve (heap st0) cfg0 q = inr v -> resolve (heap s'') cfg0 q = inr v) /\
  (forall ws s'' (r : outcome unit),
     Forall (fun w => above (length (heap st0)) (snd w) = true) ws ->
     assign_each config0 ws sampled0 = (s'', r) ->
     extends (heap st0) (heap s'') /\
     forall q v, resolve (heap st0) cfg0 q = inr v -> resolve (heap s'') cfg0 q = inr v).
Proof.
  apply (sample_td3_params_independent 0 cfg0 st0 sampled0 config0 fresh_trial).
  - reflexivity.
  - reflexivity.
  - exact sampled0_run.
Defined.

(** The base configuration and the returned one after one call: the base
    still has the search-space node of [discount_factor] where the returned
    configuration has the drawn value, and the base serves a further
    call. *)
Example base_configuration_kept :
  resolve (heap st0) cfg0 ["algorithm"; "discount_factor"] = inr (VRef 5) /\
  resolve (heap sampled0) cfg0 ["algorithm"; "discount_factor"] = inr (VRef 5) /\
  resolve (heap sampled0) cfg0 ["algorithm"; "discount_factor"; "min"]
  = inr (VFloat (ratio 9 10)) /\
  resolve (heap sampled0) config0 ["algorithm"; "discount_factor"]
  = inr (VFloat (ratio 9 10)) /\
  snd (sample_td3_params 0 cfg0 sampled0) = Ret (VRef 32).
Proof. vm_compute. auto 6. Qed.

(** Assignments to nested fields of the returned configuration are seen
    through it and not through the base. *)
Example returned_configuration_mutated :
  let s1 := fst (assign_each config0
                   [(["algorithm"], "discount_factor", VInt 0);
                    (["algorithm"; "architecture"], "actor_hidden_size", VNone)]
                   sampled0) in
  resolve (heap s1) config0 ["algorithm"; "discount_factor"] = inr (VInt 0) /\
  resolve (heap s1) config0 ["algorithm"; "architecture"; "actor_hidden_size"]
  = inr VNone /\
  resolve (heap s1) cfg0 ["algorithm"; "discount_factor"] = inr (VRef 5) /\
  resolve (heap s1) cfg0 ["algorithm"; "architecture"; "actor_hidden_size"]
  = inr (VRef 12).
Proof. vm_compute. auto. Qed.

Lemma objective_drops_agent_witness :
  resolve trained_heap (VRef 32) ["last_mean_reward"] = inr (VFloat (ratio 5 2)) /\
  objective 0 cfg0 "run_td3" st0 =
  (stepped "run_td3" config0 17 trained_heap sampled0,
   Raise (Exn AttributeError "is_eval")).
Proof.
  split; [vm_compute; reflexivity|].
  apply (objective_drops_agent 0 cfg0 "run_td3" st0 sampled0 config0 17 (VInt 7)
           run_ok trained_heap (VRef 32)).
  - exact sampled0_run.
  - vm_compute. reflexivity.
  - vm_compute. reflexivity.
  - reflexivity.
  - unfold run_ok, trained_heap, entered_heap. f_equal.
Defined.

Lemma objective_value_failure_witness :
  objective 0 cfg0 "run_ddpg" st0 =
  (log (EPrint [VStr "nan in parameters"])
     (stepped "run_ddpg" config0 17 entered_heap sampled0),
   Ret (VFloat nan)) /\
  objective 0 cfg0 "run_stop" st0 =
  (stepped "run_stop" config0 17 entered_heap sampled0,
   Raise (Exn KeyboardInterrupt "")).
Proof.
  split.
  - apply (objective_value_failure 0 cfg0 "run_ddpg" st0 sampled0 config0 17 (VInt 7)
             run_nan entered_heap (Exn AssertionError "nan in parameters")).
    + exact sampled0_run.
    + vm_compute. reflexivity.
    + vm_compute. reflexivity.
    + reflexivity.
    + reflexivity.
    + reflexivity.
  - apply (objective_value_failure 0 cfg0 "run_stop" st0 sampled0 config0 17 (VInt 7)
             run_interrupted entered_heap (Exn KeyboardInterrupt "")).
    + exact sampled0_run.
    + vm_compute. reflexivity.
    + vm_compute. reflexivity.
    + reflexivity.
    + reflexivity.
    + reflexivity.
Defined.

Lemma objective_one_step_witness :
  resolve (heap sampled0) config0 ["algorithm"; "max_epochs"] = inr (VInt 7812) /\
  exists sf r,
    objective 0 cfg0 "run_td3" st0 = (sf, r) /\
    calls (trace sf) = S (calls (trace sampled0)) /\
    List.filter is_call (trace sf)
    = (List.filter is_call (trace sampled0) ++ [ECall "run_td3" [config0; VNone]])%list.
Proof.
  split; [vm_compute; reflexivity|].
  apply (objective_one_step 0 cfg0 "run_td3" st0 sampled0 config0 17 (VInt 7)
           sampled0_run) with (c := run_ok).
  - vm_compute. reflexivity.
  - vm_compute. reflexivity.
  - reflexivity.
Defined.

Lemma objective_error_path_max_epoch_witness :
  resolve (heap sampled0) config0 ["algorithm"; "max_epoch"] = inr (VInt 7) /\
  exists sf,
    objective 0 cfg0 "run_ddpg" st0 = (sf, Ret (VFloat nan)) /\
    heap sf = entered_heap /\
    resolve (heap sf) config0 ["algorithm"; "max_epoch"] = inr (VInt 1).
Proof.
  split; [vm_compute; reflexivity|].
  apply (objective_error_path_max_epoch 0 cfg0 "run_ddpg" st0 sampled0 config0 17
           (VInt 7) run_nan entered_heap (Exn AssertionError "nan in parameters")).
  - exact sampled0_run.
  - vm_compute. reflexivity.
  - vm_compute. reflexivity.
  - reflexivity.
  - reflexivity.
  - reflexivity.
  - reflexivity.
Defined.

Lemma study0_run : tune_create_study cfg0 st0 = (study0, Ret tt).
Proof.
  unfold study0. apply (run_fst (tune_create_study cfg0) st0 tt).
  vm_compute. reflexivity.
Defined.

Lemma study3_run : optimize_loop demo_search 3 study0 = (study3, Ret tt).
Proof.
  unfold study3. apply (run_fst (optimize_loop demo_search 3) study0 tt).
  vm_compute. reflexivity.
Defined.

Lemma study_stop_run :
  optimize_loop demo_search 2 study3 = (study_stop, Raise (Exn KeyboardInterrupt "")).
Proof.
  unfold study_stop.
  destruct (optimize_loop demo_search 2 study3) as [s1 r] eqn:E.
  assert (Hr : snd (optimize_loop demo_search 2 study3)
               = Raise (Exn KeyboardInterrupt "")) by (vm_compute; reflexivity).
  rewrite E in Hr. simpl in Hr. subst r. reflexivity.
Defined.

Lemma tune_pruner_warmup_witness :
  pruner study0 = {| n_startup_trials := 1; n_warmup_steps := 3 / 3 |} /\
  forall ts t,
    (forall step, last_step t = Some step -> (step < 3 / 3)%Z ->
                  prune (pruner study0) ts t = false) /\
    ((Z.of_nat (length (completed ts)) < 1)%Z -> prune (pruner study0) ts t = false).
Proof.
  apply (tune_pruner_warmup cfg0 st0 study0 1 3).
  - vm_compute. reflexivity.
  - vm_compute. reflexivity.
  - exact study0_run.
Defined.

(** With the configured count itself taken as the warm-up of the pruner
    the statement fails: with [n_warmup_steps = 3] in the configuration, a trial
    whose last report is at step 1 is pruned. *)
Lemma tune_pruner_warmup_counterexample :
  ~ (forall cfg s s' W ts t step,
       resolve (heap s) cfg ["study"; "n_warmup_steps"] = inr (VInt W) ->
       tune_create_study cfg s = (s', Ret tt) ->
       last_step t = Some step -> (step < W)%Z ->
       prune (pruner s') ts t = false).
Proof.
  intros H.
  specialize (H cfg0 st0 study0 3%Z [done_trial] slow_trial 1%Z).
  assert (Hp : prune (pruner study0) [done_trial] slow_trial = true)
    by (vm_compute; reflexivity).
  rewrite H in Hp; [discriminate| | | |].
  - vm_compute. reflexivity.
  - exact study0_run.
  - reflexivity.
  - lia.
Qed.

Lemma demo_objective_local : local_objective demo_search.
Proof.
  intros trial s s' r. unfold demo_search, demo_objective.
  destruct (demo_scores trial); unfold ret, raise; intros H; inversion H; auto.
Defined.

Lemma tune_reports_after_interrupt_witness :
  exists b,
    best_among (trials study_stop) None = Some b /\
    tune_search demo_objective cfg0 "run_td3" study0 = (study_stop, Ret tt) /\
    (forall j tj, trials study3 !! j = Some tj -> trials study_stop !! j = Some tj) /\
    tune demo_objective cfg0 "run_td3" st0
    = tune_plots (logs (report_events (trials study_stop) b) study_stop).
Proof.
  apply (tune_reports_after_interrupt demo_objective cfg0 "run_td3" st0 study0
           study3 study_stop 5 (VInt 1) VNone 3 2 (Exn KeyboardInterrupt "")
           1 best_demo (ratio 5 2)).
  - exact demo_objective_local.
  - exact study0_run.
  - vm_compute. reflexivity.
  - vm_compute. reflexivity.
  - vm_compute. reflexivity.
  - reflexivity.
  - exact study3_run.
  - exact study_stop_run.
  - reflexivity.
  - vm_compute. reflexivity.
  - reflexivity.
  - reflexivity.
Defined.

(** The scenario of the interrupt after three of five trials: the table
    that [tune] exports has the three completed trials and the interrupted
    one, and the best trial is the one that scored 5/2. *)
Example interrupted_study_report :
  map t_status (trials study_stop) = [Complete; Complete; Complete; Failed] /\
  option_map snd (best_among (trials study_stop) None) = Some (ratio 5 2) /\
  snd (tune demo_objective cfg0 "run_td3" st0) = Ret tt.
Proof. vm_compute. auto. Qed.

(** * The further properties on concrete runs *)

Lemma run_pair {A} (m : M A) (s : state) : m s = (fst (m s), snd (m s)).
Proof. destruct (m s). reflexivity. Defined.

Lemma run_fst_raise {A} (m : M A) (s : state) (e : exn) :
  snd (m s) = Raise e -> m s = (fst (m s), Raise e).
Proof. destruct (m s). simpl. intros ->. reflexivity. Defined.

Lemma sample_td3_params_frame_witness :
  length (trials sampled0) = length (trials st0) /\
  (forall i, i <> 0 -> trials sampled0 !! i = trials st0 !! i) /\
  (forall t, trials st0 !! 0 = Some t ->
     exists t', trials sampled0 !! 0 = Some t' /\ t_reports t' = t_reports t /\
                t_status t' = t_status t /\ t_value t' = t_value t) /\
  pruner sampled0 = pruner st0 /\ globals sampled0 = globals st0 /\
  trace sampled0 = trace st0.
Proof.
  exact (sample_td3_params_frame 0 cfg0 st0 sampled0 (Ret config0) sampled0_run).
Defined.

Lemma sample_td3_params_keeps_unwritten_witness :
  resolve (heap sampled0) config0 ["study"; "n_trials"]
  = inr (relocate (length (heap st0)) (VInt 5)) /\
  (plain (VInt 5) = true ->
   resolve (heap sampled0) config0 ["study"; "n_trials"] = inr (VInt 5)).
Proof.
  apply (sample_td3_params_keeps_unwritten 0 cfg0 st0 sampled0 config0 fresh_trial
           ["study"; "n_trials"] (VInt 5)).
  - reflexivity.
  - reflexivity.
  - exact sampled0_run.
  - vm_compute. reflexivity.
  - vm_compute. reflexivity.
Defined.

Lemma sample_td3_params_refused_draw_witness :
  exists sf t',
    sample_td3_params 0 cfg0 st_bad_steps = (sf, Raise (Exn ValueError "low > high")) /\
    extends (heap st_bad_steps) (heap sf) /\
    resolve (heap sf) cfg0 ["algorithm"; "discount_factor"; "min"]
    = inr (VFloat (ratio 9 10)) /\
    trials sf !! 0 = Some t' /\
    t_params t' = [("discount_factor", PFloat (ratio 9 10))].
Proof.
  apply (sample_td3_params_refused_draw 0 0 st_bad_steps fresh_trial root_nd
           (VFloat (ratio 9 10)) (VFloat (ratio 9999 10000)) (ratio 9 10)
           (VInt 9) (VInt 7) (Exn ValueError "low > high")).
  - reflexivity.
  - reflexivity.
  - reflexivity.
  - vm_compute. reflexivity.
  - vm_compute. reflexivity.
  - reflexivity.
  - vm_compute. reflexivity.
  - vm_compute. reflexivity.
  - reflexivity.
Defined.

Lemma objective_frame_witness :
  length (trials (fst (objective 0 cfg0 "run_ddpg" st0))) = length (trials st0) /\
  (forall i, i <> 0 ->
     trials (fst (objective 0 cfg0 "run_ddpg" st0)) !! i = trials st0 !! i) /\
  (forall t, trials st0 !! 0 = Some t ->
     exists t', trials (fst (objective 0 cfg0 "run_ddpg" st0)) !! 0 = Some t' /\
                t_reports t' = t_reports t /\
                t_status t' = t_status t /\ t_value t' = t_value t) /\
  pruner (fst (objective 0 cfg0 "run_ddpg" st0)) = pruner st0 /\
  globals (fst (objective 0 cfg0 "run_ddpg" st0)) = globals st0.
Proof.
  apply (objective_frame 0 cfg0 "run_ddpg" st0
           (fst (objective 0 cfg0 "run_ddpg" st0))
           (snd (objective 0 cfg0 "run_ddpg" st0))).
  - exists run_nan. reflexivity.
  - apply run_pair.
Defined.

Lemma sampled_no_max_epoch_run :
  sample_td3_params 0 cfg0 st_no_max_epoch = (sampled_no_max_epoch, Ret config0).
Proof.
  unfold sampled_no_max_epoch.
  apply (run_fst (sample_td3_params 0 cfg0) st_no_max_epoch config0).
  vm_compute. reflexivity.
Defined.

Lemma objective_missing_max_epoch_witness :
  resolve (heap sampled_no_max_epoch) config0 ["algorithm"; "max_epochs"]
  = inr (VInt 7812) /\
  objective 0 cfg0 "run_td3" st_no_max_epoch
  = (sampled_no_max_epoch, Raise (Exn AttributeError "max_epoch")) /\
  trace sampled_no_max_epoch = trace st_no_max_epoch.
Proof.
  split; [vm_compute; reflexivity|].
  apply (objective_missing_max_epoch 0 cfg0 "run_td3" st_no_max_epoch
           sampled_no_max_epoch config0 fresh_trial 1
           (delete "max_epoch" algorithm_nd)).
  - reflexivity.
  - reflexivity.
  - vm_compute. reflexivity.
  - reflexivity.
  - vm_compute. reflexivity.
  - exact sampled_no_max_epoch_run.
Defined.

Lemma tune_objective_never_returns_witness :
  exists e, snd (tune objective cfg0 "run_ddpg" st0) = Raise e.
Proof.
  apply (tune_objective_never_returns cfg0 "run_ddpg" st0
           (fst (tune objective cfg0 "run_ddpg" st0))).
  - reflexivity.
  - exists run_nan. reflexivity.
  - apply run_pair.
Defined.

Lemma main_never_returns_witness :
  exists e, snd (main ["td3.yaml"; "run_ddpg"] st_cli) = Raise e.
Proof.
  apply (main_never_returns ["td3.yaml"; "run_ddpg"] st_cli
           (fst (main ["td3.yaml"; "run_ddpg"] st_cli))).
  - reflexivity.
  - intros run Hrun. injection Hrun as <-. exists run_nan. reflexivity.
  - apply run_pair.
Defined.

(** What the two runs above end with: every trial fails on its NaN score,
    so the report finds no completed trial; with the entry point that
    returns an agent the first trial ends the search. *)
Example tune_and_main_outcomes :
  snd (tune objective cfg0 "run_ddpg" st0)
  = Raise (Exn ValueError "No trials are completed yet.") /\
  map t_status (trials (fst (tune objective cfg0 "run_ddpg" st0)))
  = [Failed; Failed; Failed; Failed; Failed] /\
  snd (main ["td3.yaml"; "run_ddpg"] st_cli)
  = Raise (Exn ValueError "No trials are completed yet.") /\
  snd (main ["td3.yaml"; "run_td3"] st_cli) = Raise (Exn AttributeError "is_eval").
Proof. vm_compute. auto. Qed.

Lemma main_missing_arguments_witness :
  main [] st_cli
  = (st_cli, Raise (Exn (OtherError "IndexError") "list index out of range")) /\
  main ["td3.yaml"] st_cli
  = (set_heap base_heap st_cli,
     Raise (Exn (OtherError "IndexError") "list index out of range")).
Proof.
  destruct (main_missing_arguments st_cli) as [Hnone Hone].
  split; [exact Hnone|].
  apply (Hone "td3.yaml" load_base base_heap (VRef 0)); reflexivity.
Defined.

Lemma tune_validates_warmup_witness :
  tune_create_study cfg0 st0
  = (set_pruner {| n_startup_trials := 1; n_warmup_steps := 3 / 3 |}
       (set_trials [] st0), Ret tt) /\
  exists e, exn_cls e = ValueError /\
    tune_create_study cfg0 st_negative = (st_negative, Raise e) /\
    tune demo_objective cfg0 "run_td3" st_negative = (st_negative, Raise e).
Proof.
  split.
  - apply (tune_validates_warmup demo_objective cfg0 "run_td3" st0 1 3).
    + vm_compute. reflexivity.
    + vm_compute. reflexivity.
    + split; lia.
  - apply (tune_validates_warmup demo_objective cfg0 "run_td3" st_negative (-1) 3).
    + vm_compute. reflexivity.
    + vm_compute. reflexivity.
    + left. lia.
Defined.

Lemma study_stopped_run :
  tune_search stop_objective cfg0 "run_td3" study0 = (study_stopped, Ret tt).
Proof.
  unfold study_stopped.
  apply (run_fst (tune_search stop_objective cfg0 "run_td3") study0 tt).
  vm_compute. reflexivity.
Defined.

Lemma study_stopped_trials : trials study_stopped = [stopped_trial].
Proof. vm_compute. reflexivity. Defined.

Lemma tune_without_completed_trial_witness :
  tune stop_objective cfg0 "run_td3" st0
  = (logs [EPrint [VStr "Number of finished trials: ";
                   VInt (Z.of_nat (length (trials study_stopped)))];
           EPrint [VStr "Best trial:"]] study_stopped,
     Raise (Exn ValueError "No trials are completed yet.")).
Proof.
  apply (tune_without_completed_trial stop_objective cfg0 "run_td3" st0 study0
           study_stopped study0_run study_stopped_run).
  rewrite study_stopped_trials.
  intros [|i] t Hi; [injection Hi as <-; discriminate | discriminate].
Defined.

Lemma study_crashed_run :
  optimize_loop (fun trial => objective trial cfg0 "run_td3") (Z.to_nat 5) study0
  = (study_crashed, Raise (Exn AttributeError "is_eval")).
Proof.
  unfold study_crashed.
  apply (run_fst_raise
           (optimize_loop (fun trial => objective trial cfg0 "run_td3") (Z.to_nat 5))
           study0).
  vm_compute. reflexivity.
Defined.

Lemma tune_search_error_propagates_witness :
  tune objective cfg0 "run_td3" st0
  = (study_crashed, Raise (Exn AttributeError "is_eval")).
Proof.
  apply (tune_search_error_propagates objective cfg0 "run_td3" st0 study0
           study_crashed 5 (VInt 1) VNone (Exn AttributeError "is_eval") study0_run).
  - vm_compute. reflexivity.
  - vm_compute. reflexivity.
  - vm_compute. reflexivity.
  - exact study_crashed_run.
  - reflexivity.
Defined.

Lemma study_demo_run :
  tune_search demo_objective cfg0 "run_td3" study0 = (study_demo, Ret tt).
Proof.
  unfold study_demo.
  apply (run_fst (tune_search demo_objective cfg0 "run_td3") study0 tt).
  vm_compute. reflexivity.
Defined.

Lemma demo_best_run : best_among (trials study_demo) None = Some demo_best.
Proof.
  unfold demo_best.
  destruct (best_among (trials study_demo) None) as [b|] eqn:E; [reflexivity|].
  assert (H : option_map snd (best_among (trials study_demo) None)
              = Some (ratio 5 2)) by (vm_compute; reflexivity).
  rewrite E in H. discriminate.
Defined.

Lemma tune_report_then_plots_witness :
  tune demo_objective cfg0 "run_td3" st0
  = (logs (report_events (trials study_demo) demo_best
           ++ [EShow "optimization_history"; EShow "param_importances"]) study_demo,
     Ret tt).
Proof.
  apply (tune_report_then_plots demo_objective cfg0 "run_td3" st0 study0 study_demo
           demo_best study0_run study_demo_run demo_best_run); reflexivity.
Defined.

Lemma tune_pruner_gate_opens_witness :
  prune (pruner study0) [done_trial] slow_trial
  = median_below (map t_reports (completed [done_trial])) (t_reports slow_trial) 1.
Proof.
  apply (tune_pruner_gate_opens cfg0 st0 study0 1 3 [done_trial] slow_trial 1).
  - vm_compute. reflexivity.
  - vm_compute. reflexivity.
  - exact study0_run.
  - reflexivity.
  - vm_compute. discriminate.
  - vm_compute. discriminate.
  - vm_compute. reflexivity.
Defined.
